(** * localops: the cluster registry and its two connectors

    A shallow embedding of [app/models/cluster.py], [app/core/config.py],
    [app/services/kubernetes_service.py], [app/services/prometheus_service.py]
    and [app/api/routes.py], with the properties of the registry, the
    connectors and the gateway routes stated over it.

    Layout: Python values and exceptions; the handler monad (state,
    exceptions, a log of outbound calls); the pydantic models; the two
    services; the routes; then the theorems. *)

From Stdlib Require Import String Ascii List ZArith Lia Bool PrimFloat.
From Stdlib Require Import Decimal DecimalNat DecimalString FinFun.
Import ListNotations.

Set Implicit Arguments.
Set Warnings "-register-all".
Open Scope string_scope.

(* ================================================================== *)
(** ** Python values *)

(** The values that flow through the program: what [yaml.safe_load] and
    [response.json()] build, and what the handlers return to the framework.
    A [dict] is an association list in insertion order, as Python keeps it;
    keys are the string keys the program reads. *)
Inductive pyval : Type :=
| PyNone
| PyBool (b : bool)
| PyInt (z : Z)
| PyFloat (f : float)
| PyStr (s : string)
| PyList (l : list pyval)
| PyDict (d : list (string * pyval)).

Definition pydict := list (string * pyval).

(** [type(v).__name__] *)
Definition type_name (v : pyval) : string :=
  match v with
  | PyNone => "NoneType"
  | PyBool _ => "bool"
  | PyInt _ => "int"
  | PyFloat _ => "float"
  | PyStr _ => "str"
  | PyList _ => "list"
  | PyDict _ => "dict"
  end.

(** The first binding of [k], as a lookup in a dict built by successive
    insertions of distinct keys reads it. *)
Fixpoint lookup (k : string) (d : pydict) : option pyval :=
  match d with
  | [] => None
  | (k', v) :: d' => if String.eqb k k' then Some v else lookup k d'
  end.

(** [d.get(k, default)] *)
Definition dict_get (d : pydict) (k : string) (default : pyval) : pyval :=
  match lookup k d with
  | Some v => v
  | None => default
  end.

Definition keys (d : pydict) : list string := map fst d.

(** The double quote, for the label matchers of the query expressions. *)
Definition dquote : string := String "034"%char EmptyString.
Definition squote : string := "'".

(** [str(n)] for a non-negative int: its decimal digits. *)
Definition str_nat (n : nat) : string := NilEmpty.string_of_uint (Nat.to_uint n).

(** [c.lower()] on one character. [str.lower] is the Unicode mapping; on the
    bytes of a UTF-8 string only A-Z change here, which agrees with Python
    on whether the result equals an all-ASCII word without [k] or [i]. *)
Definition lower_ascii (c : ascii) : ascii :=
  let n := nat_of_ascii c in
  if (65 <=? n)%nat && (n <=? 90)%nat then ascii_of_nat (n + 32) else c.

(** [s.lower()] *)
Fixpoint lower (s : string) : string :=
  match s with
  | EmptyString => EmptyString
  | String c s' => String (lower_ascii c) (lower s')
  end.

(** [s.split(sep)] for a one-character separator: never empty. *)
Fixpoint split (sep : ascii) (s : string) : list string :=
  match s with
  | EmptyString => [EmptyString]
  | String c s' =>
      if Ascii.eqb c sep then EmptyString :: split sep s'
      else match split sep s' with
           | [] => [String c EmptyString]
           | w :: ws => String c w :: ws
           end
  end.

(** [s.rstrip(c)] for a one-character set. *)
Fixpoint rstrip (c : ascii) (s : string) : string :=
  match s with
  | EmptyString => EmptyString
  | String a s' =>
      match rstrip c s' with
      | EmptyString => if Ascii.eqb a c then EmptyString else String a EmptyString
      | r => String a r
      end
  end.

(* ================================================================== *)
(** ** Exceptions *)

(** The exception classes the program raises, catches or lets through.
    [LibraryError] stands for what the client libraries raise besides
    [ApiException] (kube-config errors, transport errors, YAML and JSON
    decoding errors), with the class name and the message. *)
Inductive exn : Type :=
| Exception (msg : string)
| ApiException (msg : string)
| LibraryError (cls msg : string)
| KeyError (key : string)
| AttributeError (ty attr : string)
| IndexError (msg : string)
| ValidationError (msg : string)
| HTTPException (status_code : Z) (detail : string).

(** [str(e)] *)
Definition str_exn (e : exn) : string :=
  match e with
  | Exception m => m
  | ApiException m => m
  | LibraryError _ m => m
  | KeyError k => squote ++ k ++ squote
  | AttributeError ty attr =>
      squote ++ ty ++ "' object has no attribute '" ++ attr ++ squote
  | IndexError m => m
  | ValidationError m => m
  | HTTPException _ detail => detail
  end.

Definition is_ApiException (e : exn) : bool :=
  match e with ApiException _ => true | _ => false end.

(** The status classes of the gateway's error responses. *)
Definition client_fault (e : exn) : bool :=
  match e with
  | HTTPException c _ => (400 <=? c)%Z && (c <? 500)%Z
  | _ => false
  end.

Definition server_fault (e : exn) : bool :=
  match e with
  | HTTPException c _ => (500 <=? c)%Z && (c <? 600)%Z
  | _ => false
  end.

(* ================================================================== *)
(** ** app/models/cluster.py *)

Record ClusterBase : Type := {
  name : string;
  description : option string;
  kubeconfig : string;
  prometheus_url : option string
}.

Definition ClusterCreate : Type := ClusterBase.

Record Cluster : Type := {
  base :> ClusterBase;
  id : string;
  status : string;
  nodes : list pydict;
  namespaces : list string
}.

Record ClusterMetrics : Type := {
  cpu_usage : float;
  memory_usage : float;
  pod_count : Z;
  node_count : Z;
  timestamp : string
}.

(* ================================================================== *)
(** ** The client libraries' objects *)

Record V1ObjectMeta : Type := { meta_name : string }.
Record V1Node : Type := { node_metadata : V1ObjectMeta }.
Record V1Namespace : Type := { ns_metadata : V1ObjectMeta }.
Record V1Container : Type := { container_name : string }.
Record V1Pod : Type := {
  pod_metadata : V1ObjectMeta;
  pod_status_phase : string;
  pod_spec_containers : list V1Container
}.

(** An [aiohttp] response: [response.status], what [await response.text()]
    gives, and what [await response.json()] gives or raises. *)
Record ClientResponse : Type := {
  resp_status : Z;
  resp_text : string;
  resp_json : exn + pyval
}.

(** One outbound call with its arguments and what came back. *)
Inductive event : Type :=
| load_kube_config_ev (config_file : string) (r : exn + unit)
| list_node_ev (r : exn + list V1Node)
| list_namespace_ev (r : exn + list V1Namespace)
| list_namespaced_pod_ev (namespace : string) (r : exn + list V1Pod)
| create_namespaced_deployment_ev (body namespace : pyval) (r : exn + pyval)
| session_get_ev (url : string) (params : list (string * string))
    (r : exn + ClientResponse).

Definition is_metrics_query (ev : event) : bool :=
  match ev with session_get_ev _ _ _ => true | _ => false end.

(** What lies outside the process: the control plane behind the [kubernetes]
    client, the metrics endpoint behind [aiohttp], the clock, and the parts
    of [yaml] and [pydantic] the program leans on. Each answer may depend on
    everything that happened before, hence the threaded [world]. *)
Class Collaborators : Type := {
  world : Type;
  datetime : Type;
  load_kube_config : string -> world -> (exn + unit) * world;
  list_node : world -> (exn + list V1Node) * world;
  list_namespace : world -> (exn + list V1Namespace) * world;
  list_namespaced_pod : string -> world -> (exn + list V1Pod) * world;
  create_namespaced_deployment :
    pyval -> pyval -> world -> (exn + pyval) * world;
  session_get :
    string -> list (string * string) -> world -> (exn + ClientResponse) * world;
  datetime_now : world -> datetime * world;
  isoformat : datetime -> string;
  yaml_safe_load : string -> exn + pyval;
  (** pydantic's scalar validators and the text of its error report *)
  validate_float : pyval -> option float;
  validate_int : pyval -> option Z;
  validation_message : string -> list (string * string) -> string
}.

(* ================================================================== *)
(** ** The handler monad *)

Section Monad.

Context {X : Collaborators}.

(** [settings.CLUSTERS] of [app/core/config.py] (default [[]]), the world
    outside, and the log of outbound calls made so far. *)
Record state : Type := {
  CLUSTERS : list Cluster;
  outside : world;
  calls : list event
}.

Definition M (A : Type) : Type := state -> (exn + A) * state.

Definition ret {A} (a : A) : M A := fun s => (inr a, s).

Definition raise {A} (e : exn) : M A := fun s => (inl e, s).

Definition bind {A B} (m : M A) (k : A -> M B) : M B :=
  fun s =>
    match m s with
    | (inr a, s') => k a s'
    | (inl e, s') => (inl e, s')
    end.

(** [try: m  except C as e: h e], with [catches] deciding [isinstance(e, C)] *)
Definition try_except {A} (m : M A) (catches : exn -> bool) (h : exn -> M A)
  : M A :=
  fun s =>
    match m s with
    | (inr a, s') => (inr a, s')
    | (inl e, s') => if catches e then h e s' else (inl e, s')
    end.

(** Every class of [exn] derives from [Exception]. *)
Definition any_Exception (e : exn) : bool := true.

(** An outbound call: ask the world, log the call and its answer. *)
Definition outbound {A} (ask : world -> (exn + A) * world)
    (log : exn + A -> event) : M A :=
  fun s =>
    let (r, w) := ask (outside s) in
    (r, {| CLUSTERS := CLUSTERS s; outside := w; calls := calls s ++ [log r] |}).

Definition now : M datetime :=
  fun s =>
    let (t, w) := datetime_now (outside s) in
    (inr t, {| CLUSTERS := CLUSTERS s; outside := w; calls := calls s |}).

Definition get_CLUSTERS : M (list Cluster) := fun s => (inr (CLUSTERS s), s).

(** [settings.CLUSTERS.append(c)] *)
Definition CLUSTERS_append (c : Cluster) : M unit :=
  fun s =>
    (inr tt,
     {| CLUSTERS := CLUSTERS s ++ [c]; outside := outside s; calls := calls s |}).

End Monad.

Declare Scope py_scope.
Delimit Scope py_scope with py.
Notation "x <- m ;; k" := (bind m (fun x => k))
  (at level 61, m at next level, right associativity) : py_scope.
Notation "m ;;; k" := (bind m (fun _ => k))
  (at level 61, right associativity) : py_scope.
Open Scope py_scope.

(* ================================================================== *)
(** ** Attribute and item access on Python values *)

Section Access.

Context {X : Collaborators}.

(** Lift a library call that returns or raises without touching the world. *)
Definition lift {A} (r : exn + A) : M A := fun s => (r, s).

(** [d[k]] on a dict *)
Definition getitem (d : pydict) (k : string) : M pyval :=
  match lookup k d with
  | Some v => ret v
  | None => raise (KeyError k)
  end.

(** [v.get(k, default)]: only a dict has [get]. *)
Definition py_get (v : pyval) (k : string) (default : pyval) : M pyval :=
  match v with
  | PyDict d => ret (dict_get d k default)
  | _ => raise (AttributeError (type_name v) "get")
  end.

(** [v.split(sep)]: only a str has [split]. *)
Definition py_split (v : pyval) (sep : ascii) : M (list string) :=
  match v with
  | PyStr s => ret (split sep s)
  | _ => raise (AttributeError (type_name v) "split")
  end.

(** [v.lower()]: only a str has [lower]. *)
Definition py_lower (v : pyval) : M string :=
  match v with
  | PyStr s => ret (lower s)
  | _ => raise (AttributeError (type_name v) "lower")
  end.

(** [l[0]] *)
Definition getitem0 {A} (l : list A) : M A :=
  match l with
  | x :: _ => ret x
  | [] => raise (IndexError "list index out of range")
  end.

End Access.

(* ================================================================== *)
(** ** pydantic construction of the models *)

Definition validate_str (v : pyval) : option string :=
  match v with PyStr s => Some s | _ => None end.

Definition validate_dict (v : pyval) : option pydict :=
  match v with PyDict d => Some d | _ => None end.

(** [List[T]]: a list whose every item validates as [T]. *)
Fixpoint validate_items {A} (item : pyval -> option A) (l : list pyval)
  : option (list A) :=
  match l with
  | [] => Some []
  | v :: l' =>
      match item v, validate_items item l' with
      | Some a, Some r => Some (a :: r)
      | _, _ => None
      end
  end.

Definition validate_list {A} (item : pyval -> option A) (v : pyval)
  : option (list A) :=
  match v with
  | PyList l => validate_items item l
  | _ => None
  end.

(** One keyword argument of a model: missing, of the wrong type, or valid. *)
Definition field {A} (kwargs : pydict) (k : string)
    (validate : pyval -> option A) (type_error : string)
  : (string * string) + A :=
  match lookup k kwargs with
  | None => inl (k, "missing")
  | Some v =>
      match validate v with
      | Some a => inr a
      | None => inl (k, type_error)
      end
  end.

Definition errors_of {A} (r : (string * string) + A) : list (string * string) :=
  match r with inl e => [e] | inr _ => [] end.

Section Models.

Context {X : Collaborators}.

(** [Cluster(id=..., name=..., ..., nodes=..., namespaces=...)]: the six
    fields the route fills from already validated strings, and the two it
    takes from the probe's dict, which pydantic validates as [List[Dict]]
    and [List[str]]. *)
Definition Cluster_init (id_ name_ : string) (description_ : option string)
    (kubeconfig_ : string) (prometheus_url_ : option string) (status_ : string)
    (nodes_ namespaces_ : pyval) : exn + Cluster :=
  let kwargs := [("nodes", nodes_); ("namespaces", namespaces_)] in
  let f_nodes := field kwargs "nodes" (validate_list validate_dict) "list_type" in
  let f_namespaces :=
    field kwargs "namespaces" (validate_list validate_str) "list_type" in
  match f_nodes, f_namespaces with
  | inr ns, inr nss =>
      inr {| base := {| name := name_; description := description_;
                        kubeconfig := kubeconfig_;
                        prometheus_url := prometheus_url_ |};
             id := id_; status := status_; nodes := ns; namespaces := nss |}
  | _, _ =>
      inl (ValidationError
             (validation_message "Cluster"
                (errors_of f_nodes ++ errors_of f_namespaces)))
  end.

(** [ClusterMetrics] built from a dict of keyword arguments: the five
    fields are required; keys that are not fields are ignored. *)
Definition ClusterMetrics_init (kwargs : pydict) : exn + ClusterMetrics :=
  let f_cpu := field kwargs "cpu_usage" validate_float "float_type" in
  let f_mem := field kwargs "memory_usage" validate_float "float_type" in
  let f_pods := field kwargs "pod_count" validate_int "int_type" in
  let f_nodes := field kwargs "node_count" validate_int "int_type" in
  let f_ts := field kwargs "timestamp" validate_str "string_type" in
  match f_cpu, f_mem, f_pods, f_nodes, f_ts with
  | inr c, inr m, inr p, inr n, inr t =>
      inr {| cpu_usage := c; memory_usage := m; pod_count := p;
             node_count := n; timestamp := t |}
  | _, _, _, _, _ =>
      inl (ValidationError
             (validation_message "ClusterMetrics"
                (errors_of f_cpu ++ errors_of f_mem ++ errors_of f_pods
                 ++ errors_of f_nodes ++ errors_of f_ts)))
  end.

End Models.

(** What the framework sends for a [Cluster] under [response_model]: every
    declared field, the inherited ones first. *)
Definition dump_opt_str (o : option string) : pyval :=
  match o with Some s => PyStr s | None => PyNone end.

Definition Cluster_dump (c : Cluster) : pydict :=
  [("name", PyStr (name c));
   ("description", dump_opt_str (description c));
   ("kubeconfig", PyStr (kubeconfig c));
   ("prometheus_url", dump_opt_str (prometheus_url c));
   ("id", PyStr (id c));
   ("status", PyStr (status c));
   ("nodes", PyList (map PyDict (nodes c)));
   ("namespaces", PyList (map PyStr (namespaces c)))].

(* ================================================================== *)
(** ** app/services/kubernetes_service.py *)

Module KubernetesService.
Section Methods.

Context {X : Collaborators}.

(** The service object: the path it was built from. The API client it holds
    carries no data of its own; the cluster it talks to is in the world. *)
Record t : Type := { self_kubeconfig : string }.

Definition _get_api_client (kubeconfig_ : string) : M unit :=
  try_except
    (outbound (load_kube_config kubeconfig_) (load_kube_config_ev kubeconfig_))
    any_Exception
    (fun e =>
       raise (Exception ("Ошибка инициализации Kubernetes клиента: " ++ str_exn e))).

(** [KubernetesService(kubeconfig)] *)
Definition init (kubeconfig_ : string) : M t :=
  _get_api_client kubeconfig_ ;;;
  ret {| self_kubeconfig := kubeconfig_ |}.

Definition get_cluster_info (self : t) : M pydict :=
  try_except
    (nodes_ <- outbound list_node list_node_ev ;;
     namespaces_ <- outbound list_namespace list_namespace_ev ;;
     ret [("node_count", PyInt (Z.of_nat (length nodes_)));
          ("namespaces",
           PyList (map (fun ns => PyStr (meta_name (ns_metadata ns))) namespaces_))])
    is_ApiException
    (fun e =>
       raise (Exception ("Ошибка получения информации о кластере: " ++ str_exn e))).

Definition pod_entry (pod : V1Pod) : pyval :=
  PyDict [("name", PyStr (meta_name (pod_metadata pod)));
          ("status", PyStr (pod_status_phase pod));
          ("containers",
           PyList (map (fun c => PyStr (container_name c))
                       (pod_spec_containers pod)))].

Definition get_pods (self : t) (namespace : string) : M (list pyval) :=
  try_except
    (pods <- outbound (list_namespaced_pod namespace)
                      (list_namespaced_pod_ev namespace) ;;
     ret (map pod_entry pods))
    is_ApiException
    (fun e => raise (Exception ("Ошибка получения списка подов: " ++ str_exn e))).

(** Falling off the end of the [try] block returns [None]. *)
Definition apply_manifest (self : t) (manifest : string) : M pyval :=
  try_except
    (manifest_dict <- lift (yaml_safe_load manifest) ;;
     v <- py_get manifest_dict "apiVersion" (PyStr "") ;;
     parts <- py_split v "/"%char ;;
     api_version <- getitem0 parts ;;
     k <- py_get manifest_dict "kind" (PyStr "") ;;
     kind <- py_lower k ;;
     if String.eqb kind "deployment" then
       metadata <- py_get manifest_dict "metadata" (PyDict []) ;;
       namespace <- py_get metadata "namespace" (PyStr "default") ;;
       outbound (create_namespaced_deployment manifest_dict namespace)
                (create_namespaced_deployment_ev manifest_dict namespace)
     else ret PyNone)
    any_Exception
    (fun e => raise (Exception ("Ошибка применения манифеста: " ++ str_exn e))).

End Methods.
End KubernetesService.

(* ================================================================== *)
(** ** app/services/prometheus_service.py *)

Module PrometheusService.
Section Methods.

Context {X : Collaborators}.

Record t : Type := { self_prometheus_url : string }.

(** [PrometheusService(prometheus_url)]; [None] has no [rstrip]. *)
Definition init (prometheus_url_ : option string) : M t :=
  match prometheus_url_ with
  | Some u => ret {| self_prometheus_url := rstrip "/"%char u |}
  | None => raise (AttributeError "NoneType" "rstrip")
  end.

(** [if time_range:] *)
Definition truthy (o : option string) : bool :=
  match o with
  | Some (String _ _) => true
  | _ => false
  end.

Definition query (self : t) (query_ : string) (time_range : option string)
  : M pyval :=
  let params :=
    ([("query", query_)]
     ++ (if truthy time_range
         then match time_range with Some tr => [("time", tr)] | None => [] end
         else []))%list in
  let url := self_prometheus_url self ++ "/api/v1/query" in
  response <- outbound (session_get url params) (session_get_ev url params) ;;
  if negb (resp_status response =? 200)%Z
  then raise (Exception ("Ошибка запроса к Prometheus: " ++ resp_text response))
  else lift (resp_json response).

Definition cluster_label (cluster_name : string) : string :=
  "{cluster=" ++ dquote ++ cluster_name ++ dquote ++ "}".

Definition cpu_usage_query (cluster_name : string) : string :=
  "sum(rate(container_cpu_usage_seconds_total" ++ cluster_label cluster_name
  ++ "[5m]))".

Definition memory_usage_query (cluster_name : string) : string :=
  "sum(container_memory_usage_bytes" ++ cluster_label cluster_name ++ ")".

Definition pod_count_query (cluster_name : string) : string :=
  "count(kube_pod_info" ++ cluster_label cluster_name ++ ")".

Definition node_count_query (cluster_name : string) : string :=
  "count(kube_node_info" ++ cluster_label cluster_name ++ ")".

Definition get_cluster_metrics (self : t) (cluster_name : string) : M pydict :=
  now_ <- now ;;
  cpu <- query self (cpu_usage_query cluster_name) None ;;
  mem <- query self (memory_usage_query cluster_name) None ;;
  pods <- query self (pod_count_query cluster_name) None ;;
  nodes_ <- query self (node_count_query cluster_name) None ;;
  let metrics := [("cpu_usage", cpu); ("memory_usage", mem);
                  ("pod_count", pods); ("node_count", nodes_)] in
  ret [("timestamp", PyStr (isoformat now_)); ("metrics", PyDict metrics)].

Definition pod_label (cluster_name namespace pod_name : string) : string :=
  "{cluster=" ++ dquote ++ cluster_name ++ dquote
  ++ ", namespace=" ++ dquote ++ namespace ++ dquote
  ++ ", pod=" ++ dquote ++ pod_name ++ dquote ++ "}".

Definition pod_cpu_query (cluster_name namespace pod_name : string) : string :=
  "rate(container_cpu_usage_seconds_total"
  ++ pod_label cluster_name namespace pod_name ++ "[5m])".

Definition pod_memory_query (cluster_name namespace pod_name : string) : string :=
  "container_memory_usage_bytes" ++ pod_label cluster_name namespace pod_name.

Definition pod_network_query (cluster_name namespace pod_name : string)
  : string :=
  "rate(container_network_receive_bytes_total"
  ++ pod_label cluster_name namespace pod_name ++ "[5m])".

Definition get_pod_metrics (self : t) (cluster_name namespace pod_name : string)
  : M pydict :=
  cpu <- query self (pod_cpu_query cluster_name namespace pod_name) None ;;
  mem <- query self (pod_memory_query cluster_name namespace pod_name) None ;;
  net <- query self (pod_network_query cluster_name namespace pod_name) None ;;
  let metrics := [("cpu", cpu); ("memory", mem); ("network", net)] in
  now_ <- now ;;
  ret [("timestamp", PyStr (isoformat now_)); ("metrics", PyDict metrics)].

End Methods.
End PrometheusService.

(* ================================================================== *)
(** ** app/api/routes.py *)

Module routes.
Section Handlers.

Context {X : Collaborators}.

(** [GET /clusters] *)
Definition get_clusters : M (list Cluster) := get_CLUSTERS.

(** The body the framework sends for [GET /clusters] under
    [response_model=List[Cluster]]. *)
Definition get_clusters_response (s : state) : exn + pyval :=
  match fst (get_clusters s) with
  | inr l => inr (PyList (map (fun c => PyDict (Cluster_dump c)) l))
  | inl e => inl e
  end.

(** Lines 22 to 34 of [create_cluster]: build the record from the request and
    the probe's dict, append it, return it. *)
Definition append_new_cluster (cluster : ClusterCreate) (cluster_info : pydict)
  : M Cluster :=
  registered <- get_CLUSTERS ;;
  let id_ := str_nat (length registered + 1) in
  nodes_ <- getitem cluster_info "nodes" ;;
  namespaces_ <- getitem cluster_info "namespaces" ;;
  new_cluster <- lift (Cluster_init id_ (name cluster) (description cluster)
                         (kubeconfig cluster) (prometheus_url cluster)
                         "active" nodes_ namespaces_) ;;
  CLUSTERS_append new_cluster ;;;
  ret new_cluster.

(** [POST /clusters] *)
Definition create_cluster (cluster : ClusterCreate) : M Cluster :=
  try_except
    (k8s_service <- KubernetesService.init (kubeconfig cluster) ;;
     cluster_info <- KubernetesService.get_cluster_info k8s_service ;;
     append_new_cluster cluster cluster_info)
    any_Exception
    (fun e => raise (HTTPException 400 (str_exn e))).

(** [next((c for c in settings.CLUSTERS if c.id == cluster_id), None)] *)
Definition find_cluster (cluster_id : string) (l : list Cluster)
  : option Cluster :=
  find (fun c => String.eqb (id c) cluster_id) l.

(** [GET /clusters/{cluster_id}/metrics] *)
Definition get_cluster_metrics (cluster_id : string) : M ClusterMetrics :=
  registered <- get_CLUSTERS ;;
  match find_cluster cluster_id registered with
  | None => raise (HTTPException 404 "Кластер не найден")
  | Some cluster =>
      if negb (PrometheusService.truthy (prometheus_url cluster))
      then raise (HTTPException 400
                    "Prometheus URL не настроен для этого кластера")
      else
        try_except
          (prometheus_service <- PrometheusService.init (prometheus_url cluster) ;;
           metrics <- PrometheusService.get_cluster_metrics prometheus_service
                        (name cluster) ;;
           lift (ClusterMetrics_init metrics))
          any_Exception
          (fun e => raise (HTTPException 500 (str_exn e)))
  end.

(** [GET /clusters/{cluster_id}/pods] *)
Definition get_cluster_pods (cluster_id : string) (namespace : string)
  : M (list pyval) :=
  registered <- get_CLUSTERS ;;
  match find_cluster cluster_id registered with
  | None => raise (HTTPException 404 "Кластер не найден")
  | Some cluster =>
      try_except
        (k8s_service <- KubernetesService.init (kubeconfig cluster) ;;
         KubernetesService.get_pods k8s_service namespace)
        any_Exception
        (fun e => raise (HTTPException 500 (str_exn e)))
  end.

End Handlers.
End routes.

(* ================================================================== *)
(** ** Vocabulary of the specification *)

Section Vocabulary.

Context {X : Collaborators}.

(** The connectivity probe of a registration: the first two statements of
    [create_cluster]'s [try] block. *)
Definition probe (kubeconfig_ : string) : M pydict :=
  k8s_service <- KubernetesService.init kubeconfig_ ;;
  KubernetesService.get_cluster_info k8s_service.

(** [create_cluster] from the point where the probe has answered. *)
Definition create_cluster_after_probe (cluster : ClusterCreate)
    (probe_result : exn + pydict) : M Cluster :=
  try_except
    (cluster_info <- lift probe_result ;;
     routes.append_new_cluster cluster cluster_info)
    any_Exception
    (fun e => raise (HTTPException 400 (str_exn e))).

(** One registration request served from state [s]: some probe runs, leaving
    the registry alone, and the rest of [create_cluster] follows. *)
Inductive registration (s : state) : exn + Cluster -> state -> Prop :=
| registration_served cluster probe_result s1 r s' :
    CLUSTERS s1 = CLUSTERS s ->
    create_cluster_after_probe cluster probe_result s1 = (r, s') ->
    registration s r s'.

(** Registration requests served one after the other, with their results. *)
Inductive registrations : state -> list (exn + Cluster) -> state -> Prop :=
| registrations_nil s : registrations s [] s
| registrations_cons s r s1 rs s2 :
    registration s r s1 ->
    registrations s1 rs s2 ->
    registrations s (r :: rs) s2.

(** The records returned by the registrations that succeeded, in order. *)
Fixpoint successes (rs : list (exn + Cluster)) : list Cluster :=
  match rs with
  | [] => []
  | inr c :: rs' => c :: successes rs'
  | inl _ :: rs' => successes rs'
  end.

(** The registry numbers its records 1, 2, 3, ... in listing order. *)
Definition numbered (l : list Cluster) : Prop :=
  map id l = map (fun i => str_nat (i + 1)) (seq 0 (length l)).

(** What [PrometheusService.query] makes of the raw answer of the endpoint. *)
Definition query_result (raw : exn + ClientResponse) : exn + pyval :=
  match raw with
  | inl e => inl e
  | inr response =>
      if (resp_status response =? 200)%Z then resp_json response
      else inl (Exception ("Ошибка запроса к Prometheus: " ++ resp_text response))
  end.

(** A logged metrics query that failed: transport error, non-200 status, or
    a body that does not decode. *)
Definition query_failed (ev : event) : bool :=
  match ev with
  | session_get_ev _ _ raw =>
      match query_result raw with inl _ => true | inr _ => false end
  | _ => false
  end.

(** The expression a logged metrics query carried. *)
Definition query_expr (ev : event) : option string :=
  match ev with
  | session_get_ev _ (("query", q) :: _) _ => Some q
  | _ => None
  end.

(** All or nothing over the metrics queries [exprs]: the calls [m] adds to
    the log from [s] are metrics queries; if any of them failed, [m] fails
    with that query's error; if [m] returns a value, it made exactly the
    queries [exprs], in order, and every one of them succeeded. *)
Definition all_or_nothing {A} (exprs : list string) (m : M A) (s : state)
  : Prop :=
  exists evs,
    calls (snd (m s)) = (calls s ++ evs)%list
    /\ Forall (fun ev => is_metrics_query ev = true) evs
    /\ (forall ev, In ev evs -> query_failed ev = true ->
        exists url params raw e,
          ev = session_get_ev url params raw
          /\ query_result raw = inl e
          /\ fst (m s) = inl e)
    /\ (forall v, fst (m s) = inr v ->
        map query_expr evs = map Some exprs
        /\ Forall (fun ev => query_failed ev = false) evs).

(** The namespace a manifest names: [metadata.namespace], or ["default"]
    when the manifest has none. *)
Definition manifest_namespace (d : pydict) : pyval :=
  match lookup "metadata" d with
  | Some (PyDict m) =>
      match lookup "namespace" m with
      | Some v => v
      | None => PyStr "default"
      end
  | _ => PyStr "default"
  end.

(** The [kind] a manifest names, the empty string when it names none. *)
Definition manifest_kind (d : pydict) : string :=
  match lookup "kind" d with
  | Some (PyStr k) => k
  | _ => ""
  end.

(** A manifest whose [apiVersion] and [kind], when present, are strings and
    whose [metadata], when present, is a mapping. *)
Definition well_typed_manifest (d : pydict) : Prop :=
  (forall v, lookup "apiVersion" d = Some v -> exists a, v = PyStr a)
  /\ (forall v, lookup "kind" d = Some v -> exists k, v = PyStr k)
  /\ (forall v, lookup "metadata" d = Some v -> exists m, v = PyDict m).

(** Applying the manifest text from [s] logs exactly one call, and that call
    creates a deployment from the manifest [d] in the manifest's namespace. *)
Definition one_create_call (self : KubernetesService.t) (manifest : string)
    (d : pydict) (s : state) : Prop :=
  exists raw,
    calls (snd (KubernetesService.apply_manifest self manifest s))
    = (calls s
       ++ [create_namespaced_deployment_ev (PyDict d) (manifest_namespace d) raw])%list.

(** The credentials of a registered cluster show in a response body: one of
    the serialized records carries them in its [kubeconfig] field. *)
Definition exposes_credentials (c : Cluster) (body : pyval) : Prop :=
  exists records fields,
    body = PyList records /\ In (PyDict fields) records
    /\ lookup "kubeconfig" fields = Some (PyStr (kubeconfig c)).

(** The body of [GET /clusters] shows no registered cluster's credentials. *)
Definition credentials_hidden (s : state) : Prop :=
  forall body c,
    routes.get_clusters_response s = inr body ->
    In c (CLUSTERS s) ->
    ~ exposes_credentials c body.

(** A computation that leaves [settings.CLUSTERS] alone. *)
Definition keeps_registry {A} (m : M A) : Prop :=
  forall s, CLUSTERS (snd (m s)) = CLUSTERS s.

End Vocabulary.

(* ================================================================== *)
(** ** Worlds to run the program in *)

(** A world whose collaborators answer the same way every time; its state
    counts the calls. The clock shows that count. *)
Definition scripted_world
    (kube : exn + unit)
    (node_list : exn + list V1Node)
    (http : string -> exn + ClientResponse)
    (document : exn + pyval) : Collaborators :=
  {| world := nat;
     datetime := nat;
     load_kube_config := fun _ w => (kube, S w);
     list_node := fun w => (node_list, S w);
     list_namespace := fun w =>
       (inr [ {| ns_metadata := {| meta_name := "default" |} |};
              {| ns_metadata := {| meta_name := "kube-system" |} |} ], S w);
     list_namespaced_pod := fun _ w => (inr [], S w);
     create_namespaced_deployment := fun body _ w => (inr body, S w);
     session_get := fun _ params w =>
       (match params with
        | (_, q) :: _ => http q
        | [] => inl (LibraryError "InvalidURL" "no query")
        end, S w);
     datetime_now := fun w => (w, S w);
     isoformat := str_nat;
     yaml_safe_load := fun _ => document;
     validate_float := fun v => match v with PyFloat f => Some f | _ => None end;
     validate_int := fun v => match v with PyInt z => Some z | _ => None end;
     validation_message := fun model errs =>
       str_nat (length errs) ++ " validation errors for " ++ model |}.

Definition three_nodes : list V1Node :=
  [ {| node_metadata := {| meta_name := "node-a" |} |};
    {| node_metadata := {| meta_name := "node-b" |} |};
    {| node_metadata := {| meta_name := "node-c" |} |} ].

Definition ok_response (v : pyval) : ClientResponse :=
  {| resp_status := 200; resp_text := "ok"; resp_json := inr v |}.

Definition unavailable : ClientResponse :=
  {| resp_status := 503; resp_text := "Service Unavailable";
     resp_json := inl (LibraryError "ContentTypeError" "unexpected mimetype") |}.

(** Every collaborator answers. *)
Definition healthy_world : Collaborators :=
  scripted_world (inr tt) (inr three_nodes)
    (fun _ => inr (ok_response (PyDict [("status", PyStr "success")])))
    (inr (PyDict [("kind", PyStr "Deployment")])).

(** The kube-config does not load. *)
Definition unreachable_world : Collaborators :=
  scripted_world (inl (LibraryError "ConfigException" "Invalid kube-config file"))
    (inr three_nodes)
    (fun _ => inr unavailable)
    (inl (LibraryError "YAMLError" "could not parse")).

(** The metrics endpoint answers every query but the pod count. *)
Definition flaky_metrics_world : Collaborators :=
  scripted_world (inr tt) (inr three_nodes)
    (fun q =>
       if String.eqb q (PrometheusService.pod_count_query "prod")
       then inr unavailable
       else inr (ok_response (PyInt 1)))
    (inr PyNone).

(** The manifest parses to a deployment whose [apiVersion] is a number. *)
Definition numeric_version_manifest : pydict :=
  [("apiVersion", PyInt 1); ("kind", PyStr "Deployment");
   ("metadata", PyDict [("name", PyStr "web")])].

Definition numeric_version_world : Collaborators :=
  scripted_world (inr tt) (inr three_nodes)
    (fun _ => inr unavailable) (inr (PyDict numeric_version_manifest)).

(** The manifest parses to a deployment whose [metadata] is null. *)
Definition null_metadata_manifest : pydict :=
  [("apiVersion", PyStr "apps/v1"); ("kind", PyStr "Deployment");
   ("metadata", PyNone)].

Definition null_metadata_world : Collaborators :=
  scripted_world (inr tt) (inr three_nodes)
    (fun _ => inr unavailable) (inr (PyDict null_metadata_manifest)).

(** A deployment in the namespace [shop]. *)
Definition shop_manifest : pydict :=
  [("apiVersion", PyStr "apps/v1"); ("kind", PyStr "DEPLOYMENT");
   ("metadata", PyDict [("name", PyStr "web"); ("namespace", PyStr "shop")])].

Definition shop_world : Collaborators :=
  scripted_world (inr tt) (inr three_nodes)
    (fun _ => inr unavailable) (inr (PyDict shop_manifest)).

Definition a_service : KubernetesService.t :=
  {| KubernetesService.self_kubeconfig := "/etc/kube/prod.yaml" |}.

Definition fresh_state (X : Collaborators) (w : @world X) : @state X :=
  {| CLUSTERS := []; outside := w; calls := [] |}.

Definition prod_request : ClusterCreate :=
  {| name := "prod"; description := None;
     kubeconfig := "/etc/kube/prod.yaml"; prometheus_url := None |}.

Definition prod_record (url : option string) : Cluster :=
  {| base := {| name := "prod"; description := None;
                kubeconfig := "/etc/kube/prod.yaml"; prometheus_url := url |};
     id := "1"; status := "active"; nodes := []; namespaces := ["default"] |}.

Definition state_with (X : Collaborators) (w : @world X) (l : list Cluster)
  : @state X :=
  {| CLUSTERS := l; outside := w; calls := [] |}.

(** A probe answer that has the key the route reads, and two requests
    served with it one after the other. *)
Definition demo_info : pydict :=
  [("nodes", PyList [PyDict [("name", PyStr "node-a")]]);
   ("namespaces", PyList [PyStr "default"; PyStr "kube-system"])].

Definition dev_request : ClusterCreate :=
  {| name := "dev"; description := Some "staging";
     kubeconfig := "/etc/kube/dev.yaml";
     prometheus_url := Some "http://prometheus.dev:9090/" |}.

Definition demo_first : (exn + Cluster) * @state healthy_world :=
  create_cluster_after_probe prod_request (inr demo_info)
    (fresh_state healthy_world 0).

Definition demo_second : (exn + Cluster) * @state healthy_world :=
  create_cluster_after_probe dev_request (inr demo_info) (snd demo_first).

(* ================================================================== *)
(** ** Vocabulary of the further properties *)

(** Which collaborator an outbound call went to. *)
Inductive call_kind : Type :=
| LoadKubeConfig | ListNode | ListNamespace | ListNamespacedPod
| CreateDeployment | SessionGet.

Definition kind_of (ev : event) : call_kind :=
  match ev with
  | load_kube_config_ev _ _ => LoadKubeConfig
  | list_node_ev _ => ListNode
  | list_namespace_ev _ => ListNamespace
  | list_namespaced_pod_ev _ _ => ListNamespacedPod
  | create_namespaced_deployment_ev _ _ _ => CreateDeployment
  | session_get_ev _ _ _ => SessionGet
  end.

Definition is_inr {A B} (r : A + B) : bool :=
  match r with inr _ => true | inl _ => false end.

(** The collaborator answered the call rather than raising. *)
Definition answered (ev : event) : bool :=
  match ev with
  | load_kube_config_ev _ r => is_inr r
  | list_node_ev r => is_inr r
  | list_namespace_ev r => is_inr r
  | list_namespaced_pod_ev _ r => is_inr r
  | create_namespaced_deployment_ev _ _ r => is_inr r
  | session_get_ev _ _ r => is_inr r
  end.

(** [c * n] *)
Fixpoint replicate (n : nat) (c : ascii) : string :=
  match n with
  | O => EmptyString
  | S n' => String c (replicate n' c)
  end.

(** [s[-1]] when [s] is not empty. *)
Fixpoint last_char (s : string) : option ascii :=
  match s with
  | EmptyString => None
  | String c EmptyString => Some c
  | String _ s' => last_char s'
  end.

(** The shape of one entry of a pod listing. *)
Definition is_pod_entry (v : pyval) : Prop :=
  exists pod_name phase containers,
    v = PyDict [("name", PyStr pod_name); ("status", PyStr phase);
                ("containers", PyList (map PyStr containers))].

Section CallLog.

Context {X : Collaborators}.

(** Every call [m] adds to the log, from any state, satisfies [P]. *)
Definition only_calls {A} (P : event -> Prop) (m : M A) : Prop :=
  forall s, exists evs,
    calls (snd (m s)) = (calls s ++ evs)%list /\ Forall P evs.

(** A metrics query for the cluster [cluster], sent to its own endpoint. *)
Definition queries_endpoint_of (cluster : Cluster) (ev : event) : Prop :=
  exists u q raw,
    prometheus_url cluster = Some u
    /\ In q [PrometheusService.cpu_usage_query (name cluster);
             PrometheusService.memory_usage_query (name cluster);
             PrometheusService.pod_count_query (name cluster);
             PrometheusService.node_count_query (name cluster)]
    /\ ev = session_get_ev (rstrip "/"%char u ++ "/api/v1/query")
              [("query", q)] raw.

(** A control-plane call for the pods of [cluster] in [namespace]: loading
    the cluster's kube-config, or listing that namespace. *)
Definition lists_pods_of (cluster : Cluster) (namespace : string) (ev : event)
  : Prop :=
  (exists r, ev = load_kube_config_ev (kubeconfig cluster) r)
  \/ (exists r, ev = list_namespaced_pod_ev namespace r).


End CallLog.

(** The record the first demonstration request is answered with. *)
Definition demo_first_record : Cluster :=
  {| base := prod_request; id := "1"; status := "active";
     nodes := [[("name", PyStr "node-a")]];
     namespaces := ["default"; "kube-system"] |}.

(** The record the second demonstration request is answered with. *)
Definition demo_second_record : Cluster :=
  {| base := dev_request; id := "2"; status := "active";
     nodes := [[("name", PyStr "node-a")]];
     namespaces := ["default"; "kube-system"] |}.

Definition web_pod : V1Pod :=
  {| pod_metadata := {| meta_name := "web-0" |};
     pod_status_phase := "Running";
     pod_spec_containers :=
       [ {| container_name := "nginx" |}; {| container_name := "sidecar" |} ] |}.

Definition job_pod : V1Pod :=
  {| pod_metadata := {| meta_name := "job-7" |};
     pod_status_phase := "Pending";
     pod_spec_containers := [ {| container_name := "worker" |} ] |}.

(** A world whose control plane lists two pods in every namespace and whose
    metrics endpoint answers every query. *)
Definition pods_world : Collaborators :=
  {| world := nat;
     datetime := nat;
     load_kube_config := fun _ w => (inr tt, S w);
     list_node := fun w => (inr three_nodes, S w);
     list_namespace := fun w => (inr [], S w);
     list_namespaced_pod := fun _ w => (inr [web_pod; job_pod], S w);
     create_namespaced_deployment := fun body _ w => (inr body, S w);
     session_get := fun _ _ w => (inr (ok_response (PyInt 7)), S w);
     datetime_now := fun w => (w, S w);
     isoformat := str_nat;
     yaml_safe_load := fun _ => inr PyNone;
     validate_float := fun v => match v with PyFloat f => Some f | _ => None end;
     validate_int := fun v => match v with PyInt z => Some z | _ => None end;
     validation_message := fun model errs => model |}.

(* ================================================================== *)
(** ** Basic facts about the embedding *)

Open Scope list_scope.

Create HintDb frame.

(** Unfold the monad down to state-passing functions. *)
Ltac unfold_monad :=
  unfold bind, try_except, ret, raise, lift, outbound, now, get_CLUSTERS,
    CLUSTERS_append, any_Exception in *.


(** Close one outcome of [apply_manifest]: no call, or the one call. *)
Ltac manifest_leaf :=
  cbn;
  split; [reflexivity |];
  split;
  [ first
      [ left; reflexivity
      | right; do 4 eexists; repeat split; first [reflexivity | eassumption] ]
  | try exact I; eauto ].


Lemma str_nat_inj (m n : nat) : str_nat m = str_nat n -> m = n.
Proof.
  unfold str_nat. intros H.
  apply (f_equal NilEmpty.uint_of_string) in H.
  rewrite !NilEmpty.usu in H.
  injection H as H.
  apply (f_equal Nat.of_uint) in H.
  now rewrite !DecimalNat.Unsigned.of_to in H.
Qed.

Section Frames.

Context {X : Collaborators}.

Lemma keeps_ret {A} (a : A) : keeps_registry (ret a).
Proof. intros s. reflexivity. Qed.

Lemma keeps_raise {A} e : keeps_registry (@raise X A e).
Proof. intros s. reflexivity. Qed.

Lemma keeps_lift {A} (r : exn + A) : keeps_registry (lift r).
Proof. intros s. reflexivity. Qed.

Lemma keeps_now : keeps_registry now.
Proof. intros s. unfold now. now destruct (datetime_now (outside s)). Qed.

Lemma keeps_outbound {A} (ask : world -> (exn + A) * world) log :
  keeps_registry (outbound ask log).
Proof. intros s. unfold outbound. now destruct (ask (outside s)). Qed.

Lemma keeps_bind {A B} (m : M A) (k : A -> M B) :
  keeps_registry m -> (forall a, keeps_registry (k a)) ->
  keeps_registry (bind m k).
Proof.
  intros Hm Hk s. unfold bind. specialize (Hm s).
  destruct (m s) as [[e | a] s1]; cbn in *; [exact Hm |].
  now rewrite Hk.
Qed.

Lemma keeps_try_except {A} (m : M A) catches h :
  keeps_registry m -> (forall e, keeps_registry (h e)) ->
  keeps_registry (try_except m catches h).
Proof.
  intros Hm Hh s. unfold try_except. specialize (Hm s).
  destruct (m s) as [[e | a] s1]; cbn in *; [| exact Hm].
  destruct (catches e); cbn; [now rewrite Hh | exact Hm].
Qed.

Hint Resolve keeps_ret keeps_raise keeps_lift keeps_now keeps_outbound
  keeps_bind keeps_try_except : frame.

Lemma keeps_init kubeconfig_ :
  keeps_registry (KubernetesService.init kubeconfig_).
Proof.
  unfold KubernetesService.init, KubernetesService._get_api_client.
  auto 10 with frame.
Qed.

Lemma keeps_get_cluster_info self :
  keeps_registry (KubernetesService.get_cluster_info self).
Proof. unfold KubernetesService.get_cluster_info. auto 10 with frame. Qed.

Lemma keeps_probe kubeconfig_ : keeps_registry (probe kubeconfig_).
Proof.
  unfold probe. apply keeps_bind; auto using keeps_init, keeps_get_cluster_info.
Qed.

Lemma probe_CLUSTERS kubeconfig_ s r s' :
  probe kubeconfig_ s = (r, s') -> CLUSTERS s' = CLUSTERS s.
Proof. intros H. pose proof (keeps_probe kubeconfig_ s) as K. now rewrite H in K. Qed.

(** The dict a successful probe returns has exactly the keys [node_count]
    and [namespaces]. *)
Lemma get_cluster_info_keys self s info s' :
  KubernetesService.get_cluster_info self s = (inr info, s') ->
  keys info = ["node_count"; "namespaces"].
Proof.
  unfold KubernetesService.get_cluster_info.
  unfold_monad. intros H.
  destruct (list_node (outside s)) as [[e | nodes_] w1]; cbn in H.
  { destruct (is_ApiException e); discriminate H. }
  destruct (list_namespace w1) as [[e | namespaces_] w2]; cbn in H.
  { destruct (is_ApiException e); discriminate H. }
  now inversion H.
Qed.

Lemma probe_info_keys kubeconfig_ s info s' :
  probe kubeconfig_ s = (inr info, s') ->
  keys info = ["node_count"; "namespaces"].
Proof.
  unfold probe, bind. intros H.
  destruct (KubernetesService.init kubeconfig_ s) as [[e | k] s1];
    [discriminate H |].
  eapply get_cluster_info_keys; eassumption.
Qed.

Lemma lookup_not_key k d : ~ In k (keys d) -> lookup k d = None.
Proof.
  induction d as [| [k' v] d IH]; cbn; intros H; [reflexivity |].
  destruct (String.eqb_spec k k') as [-> | _]; [tauto |].
  apply IH. tauto.
Qed.

(** [create_cluster] is its probe followed by the rest of the handler. *)
Lemma create_cluster_split cluster s :
  routes.create_cluster cluster s =
  let (r, s1) := probe (kubeconfig cluster) s in
  create_cluster_after_probe cluster r s1.
Proof.
  unfold routes.create_cluster, create_cluster_after_probe, probe.
  unfold try_except, bind, lift.
  destruct (KubernetesService.init (kubeconfig cluster) s) as [[e | k] s1];
    [reflexivity |].
  destruct (KubernetesService.get_cluster_info k s1) as [[e | info] s2];
    reflexivity.
Qed.

(** A failed request leaves the registry as it was; a served one appends
    the record it returns. *)
Lemma create_cluster_after_probe_registry cluster probe_result s r s' :
  create_cluster_after_probe cluster probe_result s = (r, s') ->
  CLUSTERS s' = CLUSTERS s ++ successes [r]
  /\ (forall c, r = inr c -> id c = str_nat (length (CLUSTERS s) + 1)).
Proof.
  unfold create_cluster_after_probe, routes.append_new_cluster, getitem.
  unfold_monad. intros H.
  destruct probe_result as [e | info]; cbn in H.
  { inversion H; subst; cbn. now rewrite app_nil_r. }
  destruct (lookup "nodes" info) as [nodes_ |]; cbn in H;
    [| inversion H; subst; cbn; now rewrite app_nil_r].
  destruct (lookup "namespaces" info) as [namespaces_ |]; cbn in H;
    [| inversion H; subst; cbn; now rewrite app_nil_r].
  match type of H with
  | context [Cluster_init ?a ?b ?c ?d ?e ?f ?g ?h] =>
      destruct (Cluster_init a b c d e f g h) as [err | new_cluster] eqn:Hinit
  end; cbn in H; inversion H; subst; cbn.
  - now rewrite app_nil_r.
  - split; [reflexivity |].
    intros c Hc. inversion Hc; subst.
    unfold Cluster_init in Hinit.
    repeat match type of Hinit with
      | context [match ?f with inl _ => _ | inr _ => _ end] => destruct f
      end; inversion Hinit; reflexivity.
Qed.

End Frames.

(* ================================================================== *)
(** ** Registration *)

Section Registration.

Context {X : Collaborators}.

Lemma numbered_nil : numbered [].
Proof. reflexivity. Qed.

Lemma numbered_snoc l c :
  numbered l -> id c = str_nat (length l + 1) -> numbered (l ++ [c]).
Proof.
  unfold numbered. intros Hl Hc.
  rewrite map_app, length_app, Hl. cbn [length map].
  rewrite seq_app, map_app. cbn. now rewrite Hc.
Qed.

Lemma numbered_NoDup l : numbered l -> NoDup (map id l).
Proof.
  unfold numbered. intros ->.
  apply Injective_map_NoDup; [| apply seq_NoDup].
  intros i j H. apply str_nat_inj in H. lia.
Qed.

Lemma registration_registry s r s' :
  registration s r s' ->
  CLUSTERS s' = CLUSTERS s ++ successes [r]
  /\ (numbered (CLUSTERS s) -> numbered (CLUSTERS s')).
Proof.
  intros [cluster probe_result s1 r' s'' Hframe Hrun].
  apply create_cluster_after_probe_registry in Hrun as [Hreg Hid].
  rewrite Hframe in Hreg, Hid. split; [exact Hreg |].
  intros Hn. rewrite Hreg. destruct r' as [e | c]; cbn.
  - now rewrite app_nil_r.
  - apply numbered_snoc; auto.
Qed.

(** The registry after a run is the registry before it followed by the
    records the run returned, and the numbering carries over. *)
Lemma registrations_registry s rs s' :
  registrations s rs s' ->
  CLUSTERS s' = CLUSTERS s ++ successes rs
  /\ (numbered (CLUSTERS s) -> numbered (CLUSTERS s')).
Proof.
  induction 1 as [s | s r s1 rs s2 Hstep Hrest [IHreg IHnum]].
  - cbn. rewrite app_nil_r. auto.
  - apply registration_registry in Hstep as [Hreg Hnum].
    split; [| auto].
    rewrite IHreg, Hreg, <- app_assoc. f_equal.
    destruct r; reflexivity.
Qed.

(** What the route itself does is a registration in this sense. *)
Lemma create_cluster_registration cluster s r s' :
  routes.create_cluster cluster s = (r, s') -> registration s r s'.
Proof.
  rewrite create_cluster_split.
  destruct (probe (kubeconfig cluster) s) as [pr s1] eqn:Hp. intros H.
  eapply registration_served; [| exact H].
  eapply probe_CLUSTERS; exact Hp.
Qed.

Lemma find_cluster_none cluster_id l :
  ~ In cluster_id (map id l) -> routes.find_cluster cluster_id l = None.
Proof.
  unfold routes.find_cluster.
  induction l as [| c l IH]; cbn; intros H; [reflexivity |].
  destruct (String.eqb_spec (id c) cluster_id) as [E | _]; [tauto |].
  apply IH. tauto.
Qed.

(** C3: when the connectivity probe of a registration request fails with
    [e], [create_cluster] fails with the gateway's registration error (status
    400) whose detail is [str(e)], and the registry is untouched: listing the
    clusters afterwards gives what it gave before. *)
Theorem create_cluster_probe_failure cluster s e s1 :
  probe (kubeconfig cluster) s = (inl e, s1) ->
  routes.create_cluster cluster s = (inl (HTTPException 400 (str_exn e)), s1)
  /\ CLUSTERS s1 = CLUSTERS s
  /\ fst (routes.get_clusters s1) = fst (routes.get_clusters s).
Proof.
  intros Hp. pose proof (probe_CLUSTERS _ _ Hp) as Hframe.
  rewrite create_cluster_split, Hp.
  repeat split; [exact Hframe |].
  unfold routes.get_clusters, get_CLUSTERS. cbn. now rewrite Hframe.
Qed.

(** C1, as the code has it: when the connectivity probe succeeds,
    [create_cluster] reads the key [nodes] from a dict whose keys are
    [node_count] and [namespaces]; the [KeyError] becomes status 400 with
    detail ['nodes'], no record is appended and none is returned. *)
Theorem create_cluster_probe_success_rejected cluster s info s1 :
  probe (kubeconfig cluster) s = (inr info, s1) ->
  routes.create_cluster cluster s = (inl (HTTPException 400 "'nodes'"), s1)
  /\ CLUSTERS s1 = CLUSTERS s.
Proof.
  intros Hp. split; [| eapply probe_CLUSTERS; exact Hp].
  rewrite create_cluster_split, Hp.
  unfold create_cluster_after_probe, routes.append_new_cluster, getitem.
  unfold_monad. cbn.
  rewrite (@lookup_not_key "nodes" info); [reflexivity |].
  rewrite (probe_info_keys _ _ Hp). cbn.
  intros [H | [H | []]]; discriminate H.
Qed.

(** The rest of the handler after the probe, run on whatever a probe might
    answer: starting from the empty registry, listing the clusters returns
    exactly the records that were returned, in the order they were returned,
    and their ids are pairwise distinct. *)
Theorem registrations_listed_in_order s0 rs s :
  CLUSTERS s0 = [] ->
  registrations s0 rs s ->
  fst (routes.get_clusters s) = inr (successes rs)
  /\ NoDup (map id (successes rs)).
Proof.
  intros H0 Hrun.
  apply registrations_registry in Hrun as [Hreg Hnum].
  rewrite H0 in Hreg, Hnum. cbn in Hreg.
  split.
  - unfold routes.get_clusters, get_CLUSTERS. cbn. now rewrite Hreg.
  - rewrite <- Hreg. apply numbered_NoDup, Hnum, numbered_nil.
Qed.

(** C7: starting from the empty registry, after any sequence of
    registrations, an id that no successful registration returned is not
    found: the metrics route and the pods route both fail with status 404,
    and neither makes an outbound call nor touches the state. *)
Theorem unknown_id_not_found s0 rs s cluster_id namespace :
  CLUSTERS s0 = [] ->
  registrations s0 rs s ->
  ~ In cluster_id (map id (successes rs)) ->
  routes.get_cluster_metrics cluster_id s
    = (inl (HTTPException 404 "Кластер не найден"), s)
  /\ routes.get_cluster_pods cluster_id namespace s
    = (inl (HTTPException 404 "Кластер не найден"), s)
  /\ routes.find_cluster cluster_id (CLUSTERS s) = None.
Proof.
  intros H0 Hrun Hid.
  apply registrations_registry in Hrun as [Hreg _].
  rewrite H0 in Hreg. cbn in Hreg.
  assert (Hnone : routes.find_cluster cluster_id (CLUSTERS s) = None).
  { apply find_cluster_none. now rewrite Hreg. }
  unfold routes.get_cluster_metrics, routes.get_cluster_pods.
  unfold_monad. cbn. rewrite Hnone. auto.
Qed.

End Registration.

(* ------------------------------------------------------------------ *)
(** *** Runs of the registration theorems *)

(** The two demonstration requests form a run from the empty registry. *)
Lemma demo_registrations :
  registrations (fresh_state healthy_world 0)
    [fst demo_first; fst demo_second] (snd demo_second).
Proof.
  eapply registrations_cons.
  - eapply registration_served with (s1 := fresh_state healthy_world 0);
      [reflexivity | apply surjective_pairing].
  - eapply registrations_cons; [| apply registrations_nil].
    eapply registration_served with (s1 := snd demo_first);
      [reflexivity | apply surjective_pairing].
Defined.

(** C3 at a kube-config that does not load: status 400 with the wrapped
    loader message, registry still empty. *)
Lemma create_cluster_probe_failure_witness :
  exists e s1,
    @probe unreachable_world (kubeconfig prod_request)
      (fresh_state unreachable_world 0) = (inl e, s1)
    /\ (routes.create_cluster prod_request (fresh_state unreachable_world 0)
         = (inl (HTTPException 400 (str_exn e)), s1)
        /\ CLUSTERS s1 = CLUSTERS (fresh_state unreachable_world 0)
        /\ fst (routes.get_clusters s1)
           = fst (routes.get_clusters (fresh_state unreachable_world 0))).
Proof.
  eexists. eexists. split; [reflexivity |].
  apply (@create_cluster_probe_failure unreachable_world). reflexivity.
Defined.

(** C1 at a reachable cluster with three nodes: the probe answers, the
    request is rejected all the same. *)
Lemma create_cluster_probe_success_rejected_witness :
  exists info s1,
    @probe healthy_world (kubeconfig prod_request) (fresh_state healthy_world 0)
      = (inr info, s1)
    /\ lookup "node_count" info = Some (PyInt 3)
    /\ (routes.create_cluster prod_request (fresh_state healthy_world 0)
         = (inl (HTTPException 400 "'nodes'"), s1)
        /\ CLUSTERS s1 = CLUSTERS (fresh_state healthy_world 0)).
Proof.
  eexists. eexists. split; [reflexivity |]. split; [reflexivity |].
  eapply (@create_cluster_probe_success_rejected healthy_world). reflexivity.
Defined.

(** The demonstration run: two records, listed as returned, with the ids 1
    and 2. *)
Lemma registrations_listed_in_order_witness :
  map id (successes [fst demo_first; fst demo_second]) = ["1"; "2"]
  /\ (fst (routes.get_clusters (snd demo_second))
        = inr (successes [fst demo_first; fst demo_second])
      /\ NoDup (map id (successes [fst demo_first; fst demo_second]))).
Proof.
  split; [reflexivity |].
  apply (@registrations_listed_in_order healthy_world
           (fresh_state healthy_world 0)); [reflexivity |].
  exact demo_registrations.
Defined.

(** C7 on the demonstration run: the id 3 was never handed out. *)
Lemma unknown_id_not_found_witness :
  routes.get_cluster_metrics "3" (snd demo_second)
    = (inl (HTTPException 404 "Кластер не найден"), snd demo_second)
  /\ routes.get_cluster_pods "3" "default" (snd demo_second)
    = (inl (HTTPException 404 "Кластер не найден"), snd demo_second)
  /\ routes.find_cluster "3" (CLUSTERS (snd demo_second)) = None.
Proof.
  apply (@unknown_id_not_found healthy_world (fresh_state healthy_world 0)
           [fst demo_first; fst demo_second]);
    [reflexivity | exact demo_registrations |].
  vm_compute. intros [H | [H | []]]; discriminate H.
Defined.

(* ================================================================== *)
(** ** The gateway routes *)

Section Gateway.

Context {X : Collaborators}.

(** C8, as the code has it: the body of [GET /clusters] is the list of the
    registered records in registry order, each serialized with all its
    fields; the [kubeconfig] field of every record carries the credentials
    as they were registered. *)
Theorem get_clusters_serializes_credentials s c :
  In c (CLUSTERS s) ->
  routes.get_clusters_response s
    = inr (PyList (map (fun c => PyDict (Cluster_dump c)) (CLUSTERS s)))
  /\ lookup "kubeconfig" (Cluster_dump c) = Some (PyStr (kubeconfig c))
  /\ exposes_credentials c
       (PyList (map (fun c => PyDict (Cluster_dump c)) (CLUSTERS s))).
Proof.
  intros Hin. repeat split.
  exists (map (fun c => PyDict (Cluster_dump c)) (CLUSTERS s)), (Cluster_dump c).
  repeat split.
  apply (in_map (fun c => PyDict (Cluster_dump c))), Hin.
Qed.

(** C9: for a registered cluster with no metrics endpoint, the metrics route
    fails with status 400, a client fault and not a server fault, and leaves
    the state as it was: no metrics query goes out. *)
Theorem metrics_without_endpoint s cluster_id cluster :
  routes.find_cluster cluster_id (CLUSTERS s) = Some cluster ->
  prometheus_url cluster = None ->
  exists e,
    routes.get_cluster_metrics cluster_id s = (inl e, s)
    /\ e = HTTPException 400 "Prometheus URL не настроен для этого кластера"
    /\ client_fault e = true
    /\ server_fault e = false
    /\ calls (snd (routes.get_cluster_metrics cluster_id s)) = calls s.
Proof.
  intros Hfind Hurl. eexists.
  unfold routes.get_cluster_metrics. unfold_monad. cbn.
  rewrite Hfind, Hurl. cbn. repeat split.
Qed.

(** C10: a registered cluster whose metrics endpoint is the empty string
    gets the answer of one that has none: the presence test is Python
    truthiness, the route fails with status 400 and no metrics query goes
    out. *)
Theorem metrics_with_empty_endpoint s cluster_id cluster :
  routes.find_cluster cluster_id (CLUSTERS s) = Some cluster ->
  prometheus_url cluster = Some "" ->
  PrometheusService.truthy (prometheus_url cluster)
    = PrometheusService.truthy None
  /\ exists e,
    routes.get_cluster_metrics cluster_id s = (inl e, s)
    /\ e = HTTPException 400 "Prometheus URL не настроен для этого кластера"
    /\ client_fault e = true
    /\ server_fault e = false
    /\ calls (snd (routes.get_cluster_metrics cluster_id s)) = calls s.
Proof.
  intros Hfind Hurl. split; [now rewrite Hurl |]. eexists.
  unfold routes.get_cluster_metrics. unfold_monad. cbn.
  rewrite Hfind, Hurl. cbn. repeat split.
Qed.

End Gateway.

(** C8 as stated fails: with one registered cluster, the body of
    [GET /clusters] carries its kube-config path. *)
Lemma get_clusters_exposes_credentials :
  ~ credentials_hidden (state_with healthy_world 0 [prod_record None]).
Proof.
  intros H.
  apply (H (PyList [PyDict (Cluster_dump (prod_record None))]) (prod_record None));
    [reflexivity | now left |].
  exists [PyDict (Cluster_dump (prod_record None))], (Cluster_dump (prod_record None)).
  repeat split. now left.
Qed.

(** C8 as the code has it, at a registry of one record. *)
Lemma get_clusters_serializes_credentials_witness :
  In (prod_record None) (CLUSTERS (state_with healthy_world 0 [prod_record None]))
  /\ lookup "kubeconfig" (Cluster_dump (prod_record None))
     = Some (PyStr "/etc/kube/prod.yaml")
  /\ exposes_credentials (prod_record None)
       (PyList (map (fun c => PyDict (Cluster_dump c))
                  (CLUSTERS (state_with healthy_world 0 [prod_record None])))).
Proof.
  split; [cbn; now left |].
  apply (@get_clusters_serializes_credentials healthy_world
           (state_with healthy_world 0 [prod_record None]) (prod_record None)).
  cbn. now left.
Defined.

(** C9 at a registry whose only cluster has no metrics endpoint. *)
Lemma metrics_without_endpoint_witness :
  exists e,
    routes.get_cluster_metrics "1" (state_with healthy_world 0 [prod_record None])
      = (inl e, state_with healthy_world 0 [prod_record None])
    /\ e = HTTPException 400 "Prometheus URL не настроен для этого кластера"
    /\ client_fault e = true
    /\ server_fault e = false
    /\ calls (snd (routes.get_cluster_metrics "1"
                     (state_with healthy_world 0 [prod_record None]))) = [].
Proof.
  exact (@metrics_without_endpoint healthy_world
           (state_with healthy_world 0 [prod_record None]) "1"
           (prod_record None) eq_refl eq_refl).
Defined.

(** C10 at a registry whose only cluster has the empty string as its
    metrics endpoint. *)
Lemma metrics_with_empty_endpoint_witness :
  PrometheusService.truthy (prometheus_url (prod_record (Some "")))
    = PrometheusService.truthy None
  /\ exists e,
    routes.get_cluster_metrics "1"
      (state_with healthy_world 0 [prod_record (Some "")])
      = (inl e, state_with healthy_world 0 [prod_record (Some "")])
    /\ e = HTTPException 400 "Prometheus URL не настроен для этого кластера"
    /\ client_fault e = true
    /\ server_fault e = false
    /\ calls (snd (routes.get_cluster_metrics "1"
                     (state_with healthy_world 0 [prod_record (Some "")]))) = [].
Proof.
  exact (@metrics_with_empty_endpoint healthy_world
           (state_with healthy_world 0 [prod_record (Some "")]) "1"
           (prod_record (Some "")) eq_refl eq_refl).
Defined.

(* ================================================================== *)
(** ** The metrics connector *)

Section Metrics.

Context {X : Collaborators}.

(** One query: one call to the endpoint, logged, and [query_result] of
    what came back. *)
Lemma query_run self q s :
  PrometheusService.query self q None s =
  let url := (PrometheusService.self_prometheus_url self ++ "/api/v1/query")%string in
  let (raw, w) := session_get url [("query", q)] (outside s) in
  (query_result raw,
   {| CLUSTERS := CLUSTERS s; outside := w;
      calls := calls s ++ [session_get_ev url [("query", q)] raw] |}).
Proof.
  unfold PrometheusService.query. unfold_monad. cbn.
  destruct (session_get _ _ (outside s)) as [[e | response] w]; cbn;
    [reflexivity |].
  destruct (resp_status response =? 200)%Z; reflexivity.
Qed.

Lemma all_or_nothing_ret {A} (a : A) s : all_or_nothing [] (ret a) s.
Proof.
  exists []. cbn. rewrite app_nil_r. repeat split; auto.
  intros ev [].
Qed.

Lemma all_or_nothing_now {A} exprs (k : datetime -> M A) s :
  (forall t s1, all_or_nothing exprs (k t) s1) ->
  all_or_nothing exprs (bind now k) s.
Proof.
  intros Hk. unfold all_or_nothing, bind, now.
  destruct (datetime_now (outside s)) as [t w].
  destruct (Hk t {| CLUSTERS := CLUSTERS s; outside := w; calls := calls s |})
    as [evs H].
  exists evs. exact H.
Qed.

Lemma all_or_nothing_query {A} self q exprs (k : pyval -> M A) s :
  (forall v s1, all_or_nothing exprs (k v) s1) ->
  all_or_nothing (q :: exprs) (bind (PrometheusService.query self q None) k) s.
Proof.
  intros Hk. unfold all_or_nothing, bind. rewrite query_run. cbv zeta.
  set (url := (PrometheusService.self_prometheus_url self ++ "/api/v1/query")%string).
  destruct (session_get url [("query", q)] (outside s)) as [raw w].
  set (ev := session_get_ev url [("query", q)] raw).
  destruct (query_result raw) as [e | v] eqn:Hq.
  - exists [ev]. cbn [fst snd calls]. repeat split.
    + repeat constructor.
    + intros ev' [<- | []] _. exists url, [("query", q)], raw, e. auto.
    + discriminate.
    + discriminate.
  - destruct (Hk v {| CLUSTERS := CLUSTERS s; outside := w;
                      calls := calls s ++ [ev] |})
      as [evs [Hcalls [Hall [Hfail Hok]]]].
    exists (ev :: evs). cbn [fst snd calls] in *. repeat split.
    + rewrite Hcalls, <- app_assoc. reflexivity.
    + constructor; [reflexivity | exact Hall].
    + intros ev' [<- | Hin] Hf.
      * unfold ev in Hf. cbn in Hf. rewrite Hq in Hf. discriminate Hf.
      * apply Hfail; assumption.
    + cbn. f_equal. now apply (Hok v0).
    + constructor; [| now apply (Hok v0)].
      unfold ev. cbn. now rewrite Hq.
Qed.

(** C5: [get_cluster_metrics] over its four queries and [get_pod_metrics]
    over its three are all or nothing: if any query they made failed, the
    whole call fails with that query's error and yields no value; a value is
    returned only when every one of the four, or three, queries was made and
    succeeded. *)
Theorem metrics_all_or_nothing self cluster_name namespace pod_name s :
  all_or_nothing
    [PrometheusService.cpu_usage_query cluster_name;
     PrometheusService.memory_usage_query cluster_name;
     PrometheusService.pod_count_query cluster_name;
     PrometheusService.node_count_query cluster_name]
    (PrometheusService.get_cluster_metrics self cluster_name) s
  /\ all_or_nothing
    [PrometheusService.pod_cpu_query cluster_name namespace pod_name;
     PrometheusService.pod_memory_query cluster_name namespace pod_name;
     PrometheusService.pod_network_query cluster_name namespace pod_name]
    (PrometheusService.get_pod_metrics self cluster_name namespace pod_name) s.
Proof.
  split.
  - unfold PrometheusService.get_cluster_metrics.
    apply all_or_nothing_now; intros t s0.
    do 4 (apply all_or_nothing_query; intros ? ?).
    apply all_or_nothing_ret.
  - unfold PrometheusService.get_pod_metrics.
    do 3 (apply all_or_nothing_query; intros ? ?).
    apply all_or_nothing_now; intros t s3.
    apply all_or_nothing_ret.
Qed.

(** What [get_cluster_metrics] returns when it returns: the timestamp and,
    under the key [metrics], a dict of the four raw query results. *)
Lemma get_cluster_metrics_nested self cluster_name s metrics s' :
  PrometheusService.get_cluster_metrics self cluster_name s = (inr metrics, s') ->
  exists now_ cpu mem pods nodes_,
    fst (datetime_now (outside s)) = now_
    /\ metrics =
       [("timestamp", PyStr (isoformat now_));
        ("metrics", PyDict [("cpu_usage", cpu); ("memory_usage", mem);
                            ("pod_count", pods); ("node_count", nodes_)])].
Proof.
  unfold PrometheusService.get_cluster_metrics, bind, now, ret. intros H.
  destruct (datetime_now (outside s)) as [t w].
  repeat match type of H with
    | context [PrometheusService.query ?a ?b ?c ?d] =>
        destruct (PrometheusService.query a b c d) as [[? | ?] ?];
        [discriminate H |]
    end.
  inversion H. eauto 10.
Qed.

(** C2, as the code has it: whenever [get_cluster_metrics] of the service
    returns, what it returns is the nested dict with the two keys
    [timestamp] and [metrics], the timestamp read before the queries; the
    route then builds [ClusterMetrics] from that dict, the four required
    fields are missing, and the request ends with status 500. *)
Theorem metrics_snapshot_nested s cluster_id cluster u metrics s' :
  routes.find_cluster cluster_id (CLUSTERS s) = Some cluster ->
  prometheus_url cluster = Some u ->
  u <> ""%string ->
  PrometheusService.get_cluster_metrics
    {| PrometheusService.self_prometheus_url := rstrip "/"%char u |}
    (name cluster) s = (inr metrics, s') ->
  keys metrics = ["timestamp"; "metrics"]
  /\ (exists cpu mem pods nodes_,
        metrics =
          [("timestamp", PyStr (isoformat (fst (datetime_now (outside s)))));
           ("metrics", PyDict [("cpu_usage", cpu); ("memory_usage", mem);
                               ("pod_count", pods); ("node_count", nodes_)])])
  /\ routes.get_cluster_metrics cluster_id s
     = (inl (HTTPException 500
               (validation_message "ClusterMetrics"
                  [("cpu_usage", "missing"); ("memory_usage", "missing");
                   ("pod_count", "missing"); ("node_count", "missing")])),
        s').
Proof.
  intros Hfind Hurl Hu Hsvc.
  destruct (get_cluster_metrics_nested _ _ _ Hsvc)
    as [t [cpu [mem [pods [nodes_ [Ht Hshape]]]]]].
  split; [now rewrite Hshape |].
  split; [rewrite Ht; eauto |].
  unfold routes.get_cluster_metrics, get_CLUSTERS, bind at 1.
  rewrite Hfind, Hurl.
  destruct u as [| a u]; [contradiction |]. cbn [PrometheusService.truthy negb].
  unfold try_except, bind, PrometheusService.init, ret.
  rewrite Hsvc, Hshape. reflexivity.
Qed.

(** The metrics route never answers with a snapshot. *)
Lemma metrics_route_never_succeeds cluster_id s :
  exists e, fst (routes.get_cluster_metrics cluster_id s) = inl e.
Proof.
  unfold routes.get_cluster_metrics, get_CLUSTERS, bind at 1.
  destruct (routes.find_cluster cluster_id (CLUSTERS s)) as [cluster |];
    [| cbn; eauto].
  destruct (prometheus_url cluster) as [[| a u] |] eqn:Hurl; cbn; eauto.
  unfold try_except, bind, PrometheusService.init, ret, lift, raise, any_Exception.
  destruct (PrometheusService.get_cluster_metrics _ (name cluster) s)
    as [[e | metrics] s'] eqn:Hsvc; cbn; [eauto |].
  destruct (get_cluster_metrics_nested _ _ _ Hsvc)
    as [t [cpu [mem [pods [nodes_ [_ ->]]]]]].
  cbn. eauto.
Qed.

End Metrics.

(** A run of the metrics connector against an endpoint that refuses the
    third query: two answers are thrown away and the call fails. *)
Example flaky_metrics_run :
  let s := fresh_state flaky_metrics_world 0 in
  let self := {| PrometheusService.self_prometheus_url := "http://prom:9090" |} in
  fst (PrometheusService.get_cluster_metrics self "prod" s)
    = inl (Exception "Ошибка запроса к Prometheus: Service Unavailable")
  /\ length (calls (snd (PrometheusService.get_cluster_metrics self "prod" s))) = 3%nat.
Proof. split; reflexivity. Qed.

(** C2 at an endpoint that answers all four queries: the nested dict comes
    back from the service and the route ends with status 500. *)
Lemma metrics_snapshot_nested_witness :
  let s := state_with healthy_world 0 [prod_record (Some "http://prom:9090/")] in
  exists metrics s',
    PrometheusService.get_cluster_metrics
      {| PrometheusService.self_prometheus_url := "http://prom:9090" |}
      "prod" s = (inr metrics, s')
    /\ (keys metrics = ["timestamp"; "metrics"]
        /\ (exists cpu mem pods nodes_,
              metrics =
                [("timestamp", PyStr "0");
                 ("metrics", PyDict [("cpu_usage", cpu); ("memory_usage", mem);
                                     ("pod_count", pods); ("node_count", nodes_)])])
        /\ routes.get_cluster_metrics "1" s
           = (inl (HTTPException 500 "4 validation errors for ClusterMetrics"),
              s')).
Proof.
  cbv zeta. eexists. eexists. split; [reflexivity |].
  apply (@metrics_snapshot_nested healthy_world
           (state_with healthy_world 0 [prod_record (Some "http://prom:9090/")])
           "1" (prod_record (Some "http://prom:9090/")) "http://prom:9090/");
    [reflexivity | reflexivity | discriminate | reflexivity].
Defined.

(* ================================================================== *)
(** ** The cluster connector: applying a manifest *)

Section Manifest.

Context {X : Collaborators}.

Lemma split_cons sep s : exists w ws, split sep s = w :: ws.
Proof.
  induction s as [| c s [w [ws IH]]]; cbn; [eauto |].
  destruct (Ascii.eqb c sep); [eauto |]. rewrite IH. eauto.
Qed.

(** The namespace argument the code computes is the manifest's namespace. *)
Lemma namespace_argument d :
  (forall v, lookup "metadata" d = Some v -> exists m, v = PyDict m) ->
  exists m,
    dict_get d "metadata" (PyDict []) = PyDict m
    /\ dict_get m "namespace" (PyStr "default") = manifest_namespace d.
Proof.
  intros Hm. unfold dict_get, manifest_namespace.
  destruct (lookup "metadata" d) as [v |] eqn:E.
  - destruct (Hm v eq_refl) as [m ->]. exists m. split; reflexivity.
  - exists []. split; reflexivity.
Qed.

(** C6, as the code has it: for a manifest that parses to a mapping whose
    [apiVersion] and [kind], when present, are strings and whose [metadata],
    when present, is a mapping: if the kind in lower case is [deployment],
    [apply_manifest] makes exactly one create-deployment call, with the
    manifest as body and the manifest's namespace ([default] when it names
    none), and returns what the call returns, or fails with the call's error
    wrapped; for any other kind it makes no call at all and returns [None]. *)
Theorem apply_manifest_well_typed self manifest d s :
  yaml_safe_load manifest = inr (PyDict d) ->
  well_typed_manifest d ->
  (lower (manifest_kind d) = "deployment"%string ->
   KubernetesService.apply_manifest self manifest s =
   let (raw, w) :=
     create_namespaced_deployment (PyDict d) (manifest_namespace d) (outside s) in
   (match raw with
    | inr result => inr result
    | inl e => inl (Exception ("Ошибка применения манифеста: " ++ str_exn e)%string)
    end,
    {| CLUSTERS := CLUSTERS s; outside := w;
       calls := calls s ++ [create_namespaced_deployment_ev (PyDict d)
                              (manifest_namespace d) raw] |}))
  /\ (lower (manifest_kind d) <> "deployment"%string ->
      KubernetesService.apply_manifest self manifest s = (inr PyNone, s)).
Proof.
  intros Hyaml [Hver [Hkind Hmeta]].
  assert (Hk : dict_get d "kind" (PyStr "") = PyStr (manifest_kind d)).
  { unfold dict_get, manifest_kind.
    destruct (lookup "kind" d) as [v |]; [| reflexivity].
    now destruct (Hkind v eq_refl) as [k ->]. }
  assert (Hv : exists a, dict_get d "apiVersion" (PyStr "") = PyStr a).
  { unfold dict_get. destruct (lookup "apiVersion" d) as [v |]; eauto. }
  destruct Hv as [a Hv].
  destruct (split_cons "/"%char a) as [w0 [ws Hsplit]].
  destruct (namespace_argument d Hmeta) as [m [Hm Hns]].
  unfold KubernetesService.apply_manifest.
  unfold try_except, bind, lift, py_get, py_split, py_lower, getitem0, ret.
  rewrite Hyaml, Hv, Hsplit, Hk. cbn [any_Exception].
  split; intros Hd.
  - rewrite Hd. cbn [String.eqb Ascii.eqb Bool.eqb].
    rewrite Hm, Hns. unfold outbound, raise.
    destruct (create_namespaced_deployment (PyDict d) (manifest_namespace d)
                (outside s)) as [[e | result] w]; reflexivity.
  - destruct (String.eqb_spec (lower (manifest_kind d)) "deployment");
      [contradiction | reflexivity].
Qed.

End Manifest.

(** C6 as stated fails: a deployment manifest with a numeric [apiVersion],
    and one with a null [metadata], are turned down before any call to the
    control plane is made. *)
Lemma apply_manifest_ill_typed :
  (lower (manifest_kind numeric_version_manifest) = "deployment"%string
   /\ @KubernetesService.apply_manifest numeric_version_world a_service "web.yaml"
        (fresh_state numeric_version_world 0)
      = (inl (Exception
                "Ошибка применения манифеста: 'int' object has no attribute 'split'"),
         fresh_state numeric_version_world 0)
   /\ ~ @one_create_call numeric_version_world a_service "web.yaml"
         numeric_version_manifest (fresh_state numeric_version_world 0))
  /\ (lower (manifest_kind null_metadata_manifest) = "deployment"%string
      /\ @KubernetesService.apply_manifest null_metadata_world a_service "web.yaml"
           (fresh_state null_metadata_world 0)
         = (inl (Exception
                   "Ошибка применения манифеста: 'NoneType' object has no attribute 'get'"),
            fresh_state null_metadata_world 0)
      /\ ~ @one_create_call null_metadata_world a_service "web.yaml"
            null_metadata_manifest (fresh_state null_metadata_world 0)).
Proof.
  split; (split; [reflexivity |]); (split; [reflexivity |]);
    intros [raw H]; vm_compute in H; discriminate H.
Qed.

(** C6 as the code has it, at a deployment in the namespace [shop], its kind
    written in capitals. *)
Lemma apply_manifest_well_typed_witness :
  @yaml_safe_load shop_world "web.yaml" = inr (PyDict shop_manifest)
  /\ lower (manifest_kind shop_manifest) = "deployment"%string
  /\ manifest_namespace shop_manifest = PyStr "shop"
  /\ KubernetesService.apply_manifest a_service "web.yaml"
       (fresh_state shop_world 0)
     = (inr (PyDict shop_manifest),
        @Build_state shop_world [] 1%nat
          [create_namespaced_deployment_ev (PyDict shop_manifest)
             (PyStr "shop") (inr (PyDict shop_manifest))]).
Proof.
  split; [reflexivity |]. split; [reflexivity |]. split; [reflexivity |].
  apply (@apply_manifest_well_typed shop_world a_service "web.yaml" shop_manifest
           (fresh_state shop_world 0)); [reflexivity | | reflexivity].
  repeat split; intros v H; vm_compute in H; inversion H; eauto.
Defined.

(* ================================================================== *)
(** ** Further properties of registration *)

Section RegistrationBody.

Context {X : Collaborators}.

Lemma validate_items_dicts l :
  validate_items validate_dict (map PyDict l) = Some l.
Proof. induction l as [| d l IH]; cbn; [reflexivity |]. now rewrite IH. Qed.

Lemma validate_items_strs l :
  validate_items validate_str (map PyStr l) = Some l.
Proof. induction l as [| d l IH]; cbn; [reflexivity |]. now rewrite IH. Qed.

(** The body of [create_cluster] after the probe, on a probe answer that has
    a list of dicts under [nodes] and a list of strings under [namespaces]:
    the new record takes the request's four fields, the id [str(len + 1)],
    the status [active] and the two lists; it is appended at the end of the
    registry and returned, and nothing else changes. *)
Theorem append_new_cluster_succeeds (cluster : ClusterCreate) info
    node_dicts names s :
  lookup "nodes" info = Some (PyList (map PyDict node_dicts)) ->
  lookup "namespaces" info = Some (PyList (map PyStr names)) ->
  routes.append_new_cluster cluster info s
  = (inr {| base := cluster; id := str_nat (length (CLUSTERS s) + 1);
            status := "active"; nodes := node_dicts; namespaces := names |},
     {| CLUSTERS :=
          CLUSTERS s
          ++ [ {| base := cluster; id := str_nat (length (CLUSTERS s) + 1);
                  status := "active"; nodes := node_dicts;
                  namespaces := names |} ];
        outside := outside s; calls := calls s |}).
Proof.
  intros Hn Hs.
  unfold routes.append_new_cluster, getitem. unfold_monad.
  rewrite Hn, Hs. unfold Cluster_init, field. cbn.
  rewrite validate_items_dicts, validate_items_strs.
  destruct cluster. reflexivity.
Qed.

(** When the body of [create_cluster] fails, it fails before the append: the
    state is exactly what it was, and the error is the missing key [nodes],
    the missing key [namespaces], or pydantic's validation error. *)
Theorem append_new_cluster_failure (cluster : ClusterCreate) info s e s' :
  routes.append_new_cluster cluster info s = (inl e, s') ->
  s' = s
  /\ (e = KeyError "nodes" \/ e = KeyError "namespaces"
      \/ exists m, e = ValidationError m).
Proof.
  unfold routes.append_new_cluster, getitem. unfold_monad. intros H.
  destruct (lookup "nodes" info) as [nodes_ |]; cbn in H;
    [| inversion H; auto].
  destruct (lookup "namespaces" info) as [namespaces_ |]; cbn in H;
    [| inversion H; auto].
  match type of H with
  | context [Cluster_init ?a ?b ?c ?d ?e ?f ?g ?h] =>
      destruct (Cluster_init a b c d e f g h) as [err | new_cluster] eqn:Hinit
  end; cbn in H; [| discriminate H].
  inversion H; subst. split; [reflexivity |]. right. right.
  unfold Cluster_init in Hinit.
  repeat match type of Hinit with
    | context [match ?f with inl _ => _ | inr _ => _ end] => destruct f
    end; inversion Hinit; eauto.
Qed.

Lemma append_new_cluster_appends (cluster : ClusterCreate) info s c s' :
  routes.append_new_cluster cluster info s = (inr c, s') ->
  CLUSTERS s' = CLUSTERS s ++ [c]
  /\ id c = str_nat (length (CLUSTERS s) + 1)
  /\ status c = "active"%string.
Proof.
  unfold routes.append_new_cluster, getitem. unfold_monad. intros H.
  destruct (lookup "nodes" info) as [nodes_ |]; cbn in H; [| discriminate H].
  destruct (lookup "namespaces" info) as [namespaces_ |]; cbn in H;
    [| discriminate H].
  match type of H with
  | context [Cluster_init ?a ?b ?c ?d ?e ?f ?g ?h] =>
      destruct (Cluster_init a b c d e f g h) as [err | new_cluster] eqn:Hinit
  end; cbn in H; inversion H; subst; cbn.
  split; [reflexivity |].
  unfold Cluster_init in Hinit.
  repeat match type of Hinit with
    | context [match ?f with inl _ => _ | inr _ => _ end] => destruct f
    end; inversion Hinit; split; reflexivity.
Qed.

Lemma find_cluster_unique l c :
  NoDup (map id l) -> In c l -> routes.find_cluster (id c) l = Some c.
Proof.
  unfold routes.find_cluster.
  induction l as [| c0 l IH]; cbn; intros Hnd Hin; [contradiction |].
  inversion Hnd as [| x xs Hnotin Hnd']; subst.
  destruct Hin as [-> | Hin].
  - now rewrite String.eqb_refl.
  - destruct (String.eqb_spec (id c0) (id c)) as [E | _]; [| now apply IH].
    exfalso. apply Hnotin. rewrite E. now apply in_map.
Qed.

(** The body of [create_cluster] after the probe keeps the registry
    numbered: on a registry whose ids in listing order are [1], [2], ...,
    [n] in decimal (the empty registry is one), a run that returns a record
    leaves the ids [1], ..., [n + 1]; the id it hands out is none of the
    earlier ones, the ids stay pairwise distinct, and the record has the
    status [active]. *)
Theorem append_new_cluster_fresh_id (cluster : ClusterCreate) info s c s' :
  map id (CLUSTERS s)
    = map (fun i => str_nat (i + 1)) (seq 0 (length (CLUSTERS s))) ->
  routes.append_new_cluster cluster info s = (inr c, s') ->
  map id (CLUSTERS s')
    = map (fun i => str_nat (i + 1)) (seq 0 (length (CLUSTERS s) + 1))
  /\ ~ In (id c) (map id (CLUSTERS s))
  /\ NoDup (map id (CLUSTERS s'))
  /\ status c = "active"%string.
Proof.
  intros Hnum Hrun.
  apply append_new_cluster_appends in Hrun as [Happ [Hid Hactive]].
  assert (Hnum' : numbered (CLUSTERS s')).
  { rewrite Happ. now apply numbered_snoc. }
  pose proof (numbered_NoDup Hnum') as Hnd.
  repeat split; [| | exact Hnd | exact Hactive].
  - unfold numbered in Hnum'. rewrite Hnum', Happ, length_app. reflexivity.
  - rewrite Happ, map_app in Hnd. cbn in Hnd.
    apply NoDup_remove_2 in Hnd. now rewrite app_nil_r in Hnd.
Qed.

(** Append, then look up, on the body of [create_cluster] after the probe
    and the lookup of the two read routes: on a registry numbered as above,
    the record a run returns is the one found under its id afterwards, and
    every record that was registered before is still the one found under
    its own id. *)
Theorem append_new_cluster_then_find (cluster : ClusterCreate) info s c s' :
  map id (CLUSTERS s)
    = map (fun i => str_nat (i + 1)) (seq 0 (length (CLUSTERS s))) ->
  routes.append_new_cluster cluster info s = (inr c, s') ->
  routes.find_cluster (id c) (CLUSTERS s') = Some c
  /\ forall c0, In c0 (CLUSTERS s) ->
       routes.find_cluster (id c0) (CLUSTERS s') = Some c0.
Proof.
  intros Hnum Hrun.
  apply append_new_cluster_appends in Hrun as [Happ [Hid _]].
  assert (Hnd : NoDup (map id (CLUSTERS s'))).
  { apply numbered_NoDup. rewrite Happ. now apply numbered_snoc. }
  split.
  - apply find_cluster_unique; [exact Hnd |].
    rewrite Happ. apply in_or_app. right. now left.
  - intros c0 Hin. apply find_cluster_unique; [exact Hnd |].
    rewrite Happ. apply in_or_app. now left.
Qed.

(** With the probe of [KubernetesService], [create_cluster] never registers:
    whatever the request and whatever the cluster answers, the request ends
    with status 400 and the registry is what it was. *)
Theorem create_cluster_never_registers cluster s :
  (exists detail,
     fst (routes.create_cluster cluster s) = inl (HTTPException 400 detail))
  /\ CLUSTERS (snd (routes.create_cluster cluster s)) = CLUSTERS s.
Proof.
  rewrite create_cluster_split.
  destruct (probe (kubeconfig cluster) s) as [[e | info] s1] eqn:Hp;
    pose proof (probe_CLUSTERS _ _ Hp) as Hframe.
  - cbn. eauto.
  - unfold create_cluster_after_probe, routes.append_new_cluster, getitem.
    unfold_monad. cbn.
    rewrite (@lookup_not_key "nodes" info).
    + cbn. eauto.
    + rewrite (probe_info_keys _ _ Hp). cbn.
      intros [H | [H | []]]; discriminate H.
Qed.

End RegistrationBody.

(** The body of [create_cluster] on the demonstration probe answer. *)
Lemma append_new_cluster_succeeds_witness :
  routes.append_new_cluster prod_request demo_info (fresh_state healthy_world 0)
  = (inr demo_first_record,
     state_with healthy_world 0 [demo_first_record]).
Proof.
  apply (@append_new_cluster_succeeds healthy_world prod_request demo_info
           [[("name", PyStr "node-a")]] ["default"; "kube-system"]
           (fresh_state healthy_world 0)); reflexivity.
Defined.

(** A probe answer without [namespaces] is turned down with the state kept. *)
Lemma append_new_cluster_failure_witness :
  routes.append_new_cluster prod_request [("nodes", PyList [])]
    (fresh_state healthy_world 0)
  = (inl (KeyError "namespaces"), fresh_state healthy_world 0)
  /\ (fresh_state healthy_world 0 = fresh_state healthy_world 0
      /\ (KeyError "namespaces" = KeyError "nodes"
          \/ KeyError "namespaces" = KeyError "namespaces"
          \/ exists m, KeyError "namespaces" = ValidationError m)).
Proof.
  split; [reflexivity |].
  apply (@append_new_cluster_failure healthy_world prod_request
           [("nodes", PyList [])] (fresh_state healthy_world 0)).
  reflexivity.
Defined.

(** The second demonstration request, served on the registry the first one
    left: the ids are 1 and 2, the new one is not the old one. *)
Lemma append_new_cluster_fresh_id_witness :
  routes.append_new_cluster dev_request demo_info (snd demo_first)
  = (inr demo_second_record, snd demo_second)
  /\ map id (CLUSTERS (snd demo_second)) = ["1"; "2"]
  /\ (map id (CLUSTERS (snd demo_second))
      = map (fun i => str_nat (i + 1))
          (seq 0 (length (CLUSTERS (snd demo_first)) + 1))
      /\ ~ In (id demo_second_record) (map id (CLUSTERS (snd demo_first)))
      /\ NoDup (map id (CLUSTERS (snd demo_second)))
      /\ status demo_second_record = "active"%string).
Proof.
  split; [reflexivity |]. split; [reflexivity |].
  apply (@append_new_cluster_fresh_id healthy_world dev_request demo_info
           (snd demo_first) demo_second_record (snd demo_second));
    reflexivity.
Defined.

(** After the second demonstration request both records are found under
    their ids. *)
Lemma append_new_cluster_then_find_witness :
  routes.append_new_cluster dev_request demo_info (snd demo_first)
  = (inr demo_second_record, snd demo_second)
  /\ (routes.find_cluster (id demo_second_record) (CLUSTERS (snd demo_second))
      = Some demo_second_record
      /\ forall c0, In c0 (CLUSTERS (snd demo_first)) ->
           routes.find_cluster (id c0) (CLUSTERS (snd demo_second)) = Some c0).
Proof.
  split; [reflexivity |].
  apply (@append_new_cluster_then_find healthy_world dev_request demo_info
           (snd demo_first) demo_second_record (snd demo_second));
    reflexivity.
Defined.

(* ================================================================== *)
(** ** Further properties of the cluster connector and the read routes *)

Section Connector.

Context {X : Collaborators}.

#[local] Hint Resolve keeps_ret keeps_raise keeps_lift keeps_now keeps_outbound
  keeps_bind keeps_try_except : frame.

Lemma keeps_get_pods self namespace :
  keeps_registry (KubernetesService.get_pods self namespace).
Proof. unfold KubernetesService.get_pods. auto 10 with frame. Qed.

Lemma keeps_query self q time_range :
  keeps_registry (PrometheusService.query self q time_range).
Proof.
  unfold PrometheusService.query. apply keeps_bind; [auto with frame |].
  intros response. destruct (negb (resp_status response =? 200)%Z);
    auto with frame.
Qed.

Lemma keeps_get_cluster_metrics self cluster_name :
  keeps_registry (PrometheusService.get_cluster_metrics self cluster_name).
Proof.
  unfold PrometheusService.get_cluster_metrics.
  repeat (apply keeps_bind; [auto using keeps_query with frame | intros ?]).
  auto with frame.
Qed.

Lemma keeps_get_cluster_pods cluster_id namespace :
  keeps_registry (routes.get_cluster_pods cluster_id namespace).
Proof.
  unfold routes.get_cluster_pods. apply keeps_bind; [intros s; reflexivity |].
  intros registered.
  destruct (routes.find_cluster cluster_id registered); [| auto with frame].
  apply keeps_try_except; [| auto with frame].
  apply keeps_bind; auto using keeps_init, keeps_get_pods.
Qed.

Lemma keeps_metrics_route cluster_id :
  keeps_registry (routes.get_cluster_metrics cluster_id).
Proof.
  unfold routes.get_cluster_metrics.
  apply keeps_bind; [intros s; reflexivity |].
  intros registered.
  destruct (routes.find_cluster cluster_id registered) as [cluster |];
    [| auto with frame].
  destruct (negb (PrometheusService.truthy (prometheus_url cluster)));
    [auto with frame |].
  apply keeps_try_except; [| auto with frame].
  apply keeps_bind.
  - unfold PrometheusService.init.
    destruct (prometheus_url cluster); auto with frame.
  - intros self. apply keeps_bind;
      auto using keeps_get_cluster_metrics with frame.
Qed.

(** The probe talks to the cluster in a fixed order and stops at the first
    refusal: it loads the kube-config, then lists the nodes, then lists the
    namespaces. It returns a dict only after all three calls were made and
    answered, and a call that was not answered is the last one it makes. *)
Theorem probe_call_order kubeconfig_ s :
  exists evs,
    calls (snd (probe kubeconfig_ s)) = calls s ++ evs
    /\ (map kind_of evs = [LoadKubeConfig]
        \/ map kind_of evs = [LoadKubeConfig; ListNode]
        \/ map kind_of evs = [LoadKubeConfig; ListNode; ListNamespace])
    /\ (is_inr (fst (probe kubeconfig_ s)) = true ->
        map kind_of evs = [LoadKubeConfig; ListNode; ListNamespace]
        /\ forallb answered evs = true)
    /\ (is_inr (fst (probe kubeconfig_ s)) = false ->
        exists before refused,
          evs = before ++ [refused]
          /\ forallb answered before = true /\ answered refused = false).
Proof.
  unfold probe, KubernetesService.init, KubernetesService._get_api_client,
    KubernetesService.get_cluster_info.
  unfold_monad.
  destruct (load_kube_config kubeconfig_ (outside s)) as [[e0 | []] w0] eqn:H0;
    cbn.
  { eexists. split; [reflexivity |]. cbn.
    repeat split; auto; try discriminate.
    intros _. exists [], (load_kube_config_ev kubeconfig_ (inl e0)). auto. }
  destruct (list_node w0) as [[e1 | nodes_] w1] eqn:H1; cbn.
  { exists [load_kube_config_ev kubeconfig_ (inr tt); list_node_ev (inl e1)].
    destruct (is_ApiException e1); cbn; rewrite <- app_assoc;
      (split; [reflexivity |]); repeat split; auto; try discriminate;
      intros _; exists [load_kube_config_ev kubeconfig_ (inr tt)],
                  (list_node_ev (inl e1)); auto. }
  destruct (list_namespace w1) as [[e2 | namespaces_] w2] eqn:H2; cbn.
  { exists [load_kube_config_ev kubeconfig_ (inr tt); list_node_ev (inr nodes_);
            list_namespace_ev (inl e2)].
    destruct (is_ApiException e2); cbn; rewrite <- !app_assoc;
      (split; [reflexivity |]); repeat split; auto; try discriminate;
      intros _;
      exists [load_kube_config_ev kubeconfig_ (inr tt); list_node_ev (inr nodes_)],
             (list_namespace_ev (inl e2)); auto. }
  exists [load_kube_config_ev kubeconfig_ (inr tt); list_node_ev (inr nodes_);
          list_namespace_ev (inr namespaces_)].
  rewrite <- !app_assoc. split; [reflexivity |]. cbn.
  repeat split; auto; discriminate.
Qed.

Lemma get_pods_outcome self namespace s :
  match fst (KubernetesService.get_pods self namespace s) with
  | inl e => is_ApiException e = false
  | inr pods => Forall is_pod_entry pods
  end.
Proof.
  unfold KubernetesService.get_pods. unfold_monad.
  destruct (list_namespaced_pod namespace (outside s)) as [[e | pods] w]; cbn.
  { destruct (is_ApiException e) eqn:E; cbn; [reflexivity | exact E]. }
  apply Forall_forall. intros v Hin.
  apply in_map_iff in Hin as [pod [<- _]].
  exists (meta_name (pod_metadata pod)), (pod_status_phase pod),
    (map container_name (pod_spec_containers pod)).
  unfold KubernetesService.pod_entry. now rewrite map_map.
Qed.


(** The status of the metrics route is decided by the registry alone: 404
    for an id that is not registered, 400 for a cluster without a usable
    endpoint, 500 in every other case; it never answers with a snapshot and
    never changes the registry. *)
Theorem metrics_route_status cluster_id s :
  CLUSTERS (snd (routes.get_cluster_metrics cluster_id s)) = CLUSTERS s
  /\ match routes.find_cluster cluster_id (CLUSTERS s) with
     | None =>
         fst (routes.get_cluster_metrics cluster_id s)
         = inl (HTTPException 404 "Кластер не найден")
     | Some cluster =>
         if PrometheusService.truthy (prometheus_url cluster)
         then exists detail,
             fst (routes.get_cluster_metrics cluster_id s)
             = inl (HTTPException 500 detail)
         else fst (routes.get_cluster_metrics cluster_id s)
              = inl (HTTPException 400
                       "Prometheus URL не настроен для этого кластера")
     end.
Proof.
  split; [apply keeps_metrics_route |].
  remember (routes.get_cluster_metrics cluster_id s) as r eqn:Hr.
  unfold routes.get_cluster_metrics, get_CLUSTERS in Hr.
  unfold bind at 1 in Hr.
  destruct (routes.find_cluster cluster_id (CLUSTERS s)) as [cluster |];
    [| now subst r].
  destruct (prometheus_url cluster) as [[| a u] |] eqn:Hurl; cbn in *;
    try (now subst r).
  unfold try_except, bind, PrometheusService.init, ret, lift, raise,
    any_Exception in Hr.
  destruct (PrometheusService.get_cluster_metrics _ (name cluster) s)
    as [[e | metrics] s'] eqn:Hsvc; [subst r; cbn; eauto |].
  destruct (get_cluster_metrics_nested _ _ _ Hsvc)
    as [t [cpu [mem [pods [nodes_ [_ Hshape]]]]]].
  subst metrics r. cbn. eauto.
Qed.

(** The pods route answers 404 for an id that is not registered, without
    any outbound call; for a registered cluster it answers with a list of
    pod entries or with status 500, whatever went wrong; it never changes
    the registry. *)
Theorem pods_route_status cluster_id namespace s :
  CLUSTERS (snd (routes.get_cluster_pods cluster_id namespace s)) = CLUSTERS s
  /\ match routes.find_cluster cluster_id (CLUSTERS s) with
     | None =>
         routes.get_cluster_pods cluster_id namespace s
         = (inl (HTTPException 404 "Кластер не найден"), s)
     | Some cluster =>
         match fst (routes.get_cluster_pods cluster_id namespace s) with
         | inr pods => Forall is_pod_entry pods
         | inl e => exists detail, e = HTTPException 500 detail
         end
     end.
Proof.
  split; [apply keeps_get_cluster_pods |].
  remember (routes.get_cluster_pods cluster_id namespace s) as r eqn:Hr.
  unfold routes.get_cluster_pods, get_CLUSTERS in Hr.
  unfold bind at 1 in Hr.
  destruct (routes.find_cluster cluster_id (CLUSTERS s)) as [cluster |];
    [| now subst r].
  unfold try_except, bind, any_Exception, raise in Hr.
  destruct (KubernetesService.init (kubeconfig cluster) s) as [[e | k] s1];
    [subst r; cbn; eauto |].
  pose proof (get_pods_outcome k namespace s1) as Hpods.
  destruct (KubernetesService.get_pods k namespace s1) as [[e | pods] s2];
    subst r; cbn in *; eauto.
Qed.

(** Listing the pods of a registered cluster that answers: the kube-config
    of that cluster is loaded for this request, the namespace asked for is
    listed once, and the answer has one entry per pod, in the control
    plane's order. *)
Theorem pods_route_lists cluster_id namespace s cluster w1 pods w2 :
  routes.find_cluster cluster_id (CLUSTERS s) = Some cluster ->
  load_kube_config (kubeconfig cluster) (outside s) = (inr tt, w1) ->
  list_namespaced_pod namespace w1 = (inr pods, w2) ->
  routes.get_cluster_pods cluster_id namespace s
  = (inr (map KubernetesService.pod_entry pods),
     {| CLUSTERS := CLUSTERS s; outside := w2;
        calls := calls s
                 ++ [load_kube_config_ev (kubeconfig cluster) (inr tt);
                     list_namespaced_pod_ev namespace (inr pods)] |}).
Proof.
  intros Hfind Hload Hlist.
  unfold routes.get_cluster_pods, KubernetesService.init,
    KubernetesService._get_api_client, KubernetesService.get_pods.
  unfold_monad. cbn. rewrite Hfind. cbn. rewrite Hload. cbn.
  rewrite Hlist. cbn. now rewrite <- app_assoc.
Qed.

End Connector.

(** Two pods listed for the one registered cluster. *)
Lemma pods_route_lists_witness :
  routes.get_cluster_pods "1" "default"
    (state_with pods_world 0 [prod_record None])
  = (inr (map KubernetesService.pod_entry [web_pod; job_pod]),
     @Build_state pods_world [prod_record None] 2%nat
       [load_kube_config_ev "/etc/kube/prod.yaml" (inr tt);
        list_namespaced_pod_ev "default" (inr [web_pod; job_pod])]).
Proof.
  apply (@pods_route_lists pods_world "1" "default"
           (state_with pods_world 0 [prod_record None]) (prod_record None)
           1%nat [web_pod; job_pod] 2%nat); reflexivity.
Defined.

(* ================================================================== *)
(** ** Further properties of the metrics connector *)

Section Strings.

Lemma string_app_assoc (a b c : string) :
  ((a ++ b) ++ c = a ++ (b ++ c))%string.
Proof. induction a as [| x a IH]; cbn; [reflexivity | now rewrite IH]. Qed.

Lemma string_length_app (a b : string) :
  String.length (a ++ b) = String.length a + String.length b.
Proof. induction a as [| x a IH]; cbn; [reflexivity | now rewrite IH]. Qed.

Lemma string_app_inv_head (p a b : string) :
  (p ++ a = p ++ b)%string -> a = b.
Proof.
  induction p as [| x p IH]; cbn; intros H; [exact H |].
  injection H as H. now apply IH.
Qed.

Lemma string_app_inv_tail (a b t : string) :
  (a ++ t = b ++ t)%string -> a = b.
Proof.
  revert b. induction a as [| x a IH]; intros [| y b] H; cbn in H.
  - reflexivity.
  - apply (f_equal String.length) in H. cbn in H.
    rewrite string_length_app in H. lia.
  - apply (f_equal String.length) in H. cbn in H.
    rewrite string_length_app in H. lia.
  - injection H as -> H. f_equal. now apply IH.
Qed.

Lemma rstrip_replicate c s :
  exists n, s = (rstrip c s ++ replicate n c)%string.
Proof.
  induction s as [| a s [n IH]]; [now exists 0%nat |].
  cbn [rstrip]. destruct (rstrip c s) as [| b r] eqn:E.
  - cbn in IH. destruct (Ascii.eqb_spec a c) as [-> | _].
    + exists (S n). cbn. now rewrite <- IH.
    + exists n. cbn. now rewrite <- IH.
  - exists n. cbn. cbn in IH. now rewrite <- IH.
Qed.

Lemma rstrip_last c s : last_char (rstrip c s) <> Some c.
Proof.
  induction s as [| a s IH]; cbn [rstrip]; [discriminate |].
  destruct (rstrip c s) as [| b r] eqn:E.
  - destruct (Ascii.eqb_spec a c) as [-> | Hne]; cbn; [discriminate |].
    intros H. injection H as H. contradiction.
  - exact IH.
Qed.

End Strings.

Section MetricsConnector.

Context {X : Collaborators}.

(** The service keeps its base URL without trailing slashes: the URL it was
    given is the base followed by slashes only, and the base does not end in
    one, so the query URL has a single slash before [api]. *)
Theorem init_strips_trailing_slashes u s :
  exists self n,
    PrometheusService.init (Some u) s = (inr self, s)
    /\ u = (PrometheusService.self_prometheus_url self ++ replicate n "/"%char)%string
    /\ last_char (PrometheusService.self_prometheus_url self) <> Some "/"%char.
Proof.
  destruct (rstrip_replicate "/"%char u) as [n Hn].
  exists {| PrometheusService.self_prometheus_url := rstrip "/"%char u |}, n.
  cbn. repeat split; [exact Hn | apply rstrip_last].
Qed.

(** One query is one call to the endpoint, whatever the [time_range] and
    whatever comes back, and the outcome is decided by that one answer. The
    [time] parameter goes out only for a non-empty [time_range]: without a
    [time_range], and with the empty string, the query goes out alone. *)
Theorem query_time_range self q time_range s :
  PrometheusService.query self q time_range s =
  (let url :=
     (PrometheusService.self_prometheus_url self ++ "/api/v1/query")%string in
   let params :=
     match time_range with
     | Some (String a t) => [("query"%string, q); ("time"%string, String a t)]
     | Some EmptyString => [("query"%string, q)]
     | None => [("query"%string, q)]
     end in
   let (raw, w) := session_get url params (outside s) in
   (query_result raw,
    {| CLUSTERS := CLUSTERS s; outside := w;
       calls := calls s ++ [session_get_ev url params raw] |}))
  /\ PrometheusService.query self q (Some ""%string) s
     = PrometheusService.query self q None s.
Proof.
  split; [| reflexivity].
  unfold PrometheusService.query. unfold_monad.
  destruct time_range as [[| a t] |]; cbn;
    (destruct (session_get _ _ (outside s)) as [[e | response] w]; cbn;
     [reflexivity |];
     destruct (resp_status response =? 200)%Z; reflexivity).
Qed.

Lemma query_adds_one_call self q s r s1 :
  PrometheusService.query self q None s = (r, s1) ->
  length (calls s1) = S (length (calls s)) /\ CLUSTERS s1 = CLUSTERS s.
Proof.
  rewrite query_run. cbv zeta.
  destruct (session_get _ _ (outside s)) as [raw w]. intros H.
  inversion H; subst; cbn. rewrite length_app. cbn. split; [lia | reflexivity].
Qed.

(** What [get_pod_metrics] returns when it returns: the nested dict of the
    three raw results under [cpu], [memory] and [network], after exactly
    three calls to the endpoint, with a timestamp read once they are all
    back: reading the clock is the last thing the call does. *)
Theorem get_pod_metrics_nested self cluster_name namespace pod_name s metrics s' :
  PrometheusService.get_pod_metrics self cluster_name namespace pod_name s
  = (inr metrics, s') ->
  exists cpu mem net w,
    metrics =
      [("timestamp"%string, PyStr (isoformat (fst (datetime_now w))));
       ("metrics"%string,
        PyDict [("cpu"%string, cpu); ("memory"%string, mem);
                ("network"%string, net)])]
    /\ outside s' = snd (datetime_now w)
    /\ length (calls s') = length (calls s) + 3
    /\ CLUSTERS s' = CLUSTERS s.
Proof.
  unfold PrometheusService.get_pod_metrics, bind. intros H.
  destruct (PrometheusService.query self _ None s) as [[? | cpu] s1] eqn:Q1;
    [discriminate H |].
  destruct (PrometheusService.query self _ None s1) as [[? | mem] s2] eqn:Q2;
    [discriminate H |].
  destruct (PrometheusService.query self _ None s2) as [[? | net] s3] eqn:Q3;
    [discriminate H |].
  apply query_adds_one_call in Q1 as [L1 C1].
  apply query_adds_one_call in Q2 as [L2 C2].
  apply query_adds_one_call in Q3 as [L3 C3].
  unfold now, ret in H.
  exists cpu, mem, net, (outside s3).
  destruct (datetime_now (outside s3)) as [t w]. inversion H; subst; cbn.
  repeat split; [lia | congruence].
Qed.

(** The four cluster queries tell cluster names apart: two names that give
    the same expression are the same name. *)
Theorem cluster_queries_injective n1 n2 :
  PrometheusService.cpu_usage_query n1 = PrometheusService.cpu_usage_query n2
  \/ PrometheusService.memory_usage_query n1
     = PrometheusService.memory_usage_query n2
  \/ PrometheusService.pod_count_query n1 = PrometheusService.pod_count_query n2
  \/ PrometheusService.node_count_query n1
     = PrometheusService.node_count_query n2 ->
  n1 = n2.
Proof.
  unfold PrometheusService.cpu_usage_query, PrometheusService.memory_usage_query,
    PrometheusService.pod_count_query, PrometheusService.node_count_query,
    PrometheusService.cluster_label.
  intros [H | [H | [H | H]]];
    rewrite !string_app_assoc in H;
    do 3 apply string_app_inv_head in H;
    apply string_app_inv_tail in H; exact H.
Qed.

(** The pod queries do not: the names are pasted between quotes as they
    are, so a cluster name that carries a closing quote and a namespace
    matcher gives, with one namespace, the expressions another cluster gives
    with another namespace. *)
Theorem pod_queries_collide c n x p :
  (c ++ dquote ++ ", namespace=" ++ dquote ++ n)%string <> c
  /\ PrometheusService.pod_cpu_query
       (c ++ dquote ++ ", namespace=" ++ dquote ++ n)%string x p
     = PrometheusService.pod_cpu_query c
         (n ++ dquote ++ ", namespace=" ++ dquote ++ x)%string p
  /\ PrometheusService.pod_memory_query
       (c ++ dquote ++ ", namespace=" ++ dquote ++ n)%string x p
     = PrometheusService.pod_memory_query c
         (n ++ dquote ++ ", namespace=" ++ dquote ++ x)%string p
  /\ PrometheusService.pod_network_query
       (c ++ dquote ++ ", namespace=" ++ dquote ++ n)%string x p
     = PrometheusService.pod_network_query c
         (n ++ dquote ++ ", namespace=" ++ dquote ++ x)%string p.
Proof.
  cbv zeta.
  assert (Hlabel :
    PrometheusService.pod_label
      (c ++ dquote ++ ", namespace=" ++ dquote ++ n)%string x p
    = PrometheusService.pod_label c
        (n ++ dquote ++ ", namespace=" ++ dquote ++ x)%string p).
  { unfold PrometheusService.pod_label. now rewrite !string_app_assoc. }
  split.
  - intros H. apply (f_equal String.length) in H.
    rewrite !string_length_app in H. cbn in H. lia.
  - unfold PrometheusService.pod_cpu_query, PrometheusService.pod_memory_query,
      PrometheusService.pod_network_query.
    now rewrite Hlabel.
Qed.

End MetricsConnector.

(** Three queries answered, the clock read after them. *)
Lemma get_pod_metrics_nested_witness :
  let self := {| PrometheusService.self_prometheus_url := "http://prom:9090" |} in
  let s := fresh_state pods_world 0 in
  let metrics :=
    [("timestamp"%string, PyStr "3");
     ("metrics"%string,
      PyDict [("cpu"%string, PyInt 7); ("memory"%string, PyInt 7);
              ("network"%string, PyInt 7)])] in
  let s' := snd (PrometheusService.get_pod_metrics self "prod" "default" "web-0" s) in
  PrometheusService.get_pod_metrics self "prod" "default" "web-0" s
  = (inr metrics, s')
  /\ exists cpu mem net w,
      metrics =
        [("timestamp"%string, PyStr (@isoformat pods_world (fst (datetime_now w))));
         ("metrics"%string,
          PyDict [("cpu"%string, cpu); ("memory"%string, mem);
                  ("network"%string, net)])]
      /\ outside s' = snd (datetime_now w)
      /\ length (calls s') = length (calls s) + 3
      /\ CLUSTERS s' = CLUSTERS s.
Proof.
  cbv zeta. split; [vm_compute; reflexivity |].
  apply (@get_pod_metrics_nested pods_world
           {| PrometheusService.self_prometheus_url := "http://prom:9090" |}
           "prod" "default" "web-0" (fresh_state pods_world 0)).
  vm_compute. reflexivity.
Defined.

(** The same name gives the same query. *)
Lemma cluster_queries_injective_witness :
  (PrometheusService.cpu_usage_query "prod"
   = PrometheusService.cpu_usage_query "prod"
   \/ PrometheusService.memory_usage_query "prod"
      = PrometheusService.memory_usage_query "prod"
   \/ PrometheusService.pod_count_query "prod"
      = PrometheusService.pod_count_query "prod"
   \/ PrometheusService.node_count_query "prod"
      = PrometheusService.node_count_query "prod")
  /\ "prod"%string = "prod"%string.
Proof.
  split; [left; reflexivity |].
  apply (@cluster_queries_injective "prod" "prod"). left. reflexivity.
Defined.

(* ================================================================== *)
(** ** Further properties of applying a manifest and of serialization *)

Section ManifestAnyInput.

Context {X : Collaborators}.

(** Whatever the manifest text is, [apply_manifest] leaves the registry
    alone, raises nothing but a plain [Exception] whose message starts with
    the manifest prefix, and either leaves the whole state as it was or makes
    exactly one call: a create-deployment call whose body is the parsed
    document, made only when the document is a mapping whose kind is a
    string that reads [deployment] in lower case; the outcome is then that
    call's. *)
Theorem apply_manifest_calls self manifest s :
  CLUSTERS (snd (KubernetesService.apply_manifest self manifest s)) = CLUSTERS s
  /\ (snd (KubernetesService.apply_manifest self manifest s) = s
      \/ exists d k namespace raw,
          yaml_safe_load manifest = inr (PyDict d)
          /\ lookup "kind" d = Some (PyStr k)
          /\ lower k = "deployment"%string
          /\ calls (snd (KubernetesService.apply_manifest self manifest s))
             = calls s
               ++ [create_namespaced_deployment_ev (PyDict d) namespace raw]
          /\ fst (KubernetesService.apply_manifest self manifest s)
             = match raw with
               | inr result => inr result
               | inl e =>
                   inl (Exception
                          ("Ошибка применения манифеста: " ++ str_exn e)%string)
               end)
  /\ match fst (KubernetesService.apply_manifest self manifest s) with
     | inl e =>
         exists m, e = Exception ("Ошибка применения манифеста: " ++ m)%string
     | inr _ => True
     end.
Proof.
  cbv zeta.
  unfold KubernetesService.apply_manifest.
  unfold try_except, bind, lift, py_get, py_split, py_lower, getitem0, ret,
    raise, any_Exception, outbound, dict_get.
  destruct (yaml_safe_load manifest) as [e | [| b | z | f | str | l | d]];
    try manifest_leaf.
  assert (Hversion :
    (exists a w0 ws, match lookup "apiVersion" d with
                     | Some v => v
                     | None => PyStr ""
                     end = PyStr a /\ split "/"%char a = w0 :: ws)
    \/ (forall a, match lookup "apiVersion" d with
                  | Some v => v
                  | None => PyStr ""
                  end <> PyStr a)).
  { destruct (lookup "apiVersion" d) as [[| | | | a | |] |];
      try (right; discriminate).
    - left. destruct (split_cons "/"%char a) as [w0 [ws E]]. eauto.
    - left. exists ""%string, ""%string, []. auto. }
  destruct Hversion as [[a [w0 [ws [-> Hsplit]]]] | Hno].
  2:{ destruct (match lookup "apiVersion" d with
                | Some v => v
                | None => PyStr ""
                end) as [| | | | a | |]; try manifest_leaf.
      exfalso. now apply (Hno a). }
  rewrite Hsplit.
  destruct (lookup "kind" d) as [[| b | z | f | k | l | d0] |] eqn:Hkind;
    try manifest_leaf.
  destruct (String.eqb_spec (lower k) "deployment") as [Hdep | Hother];
    [| manifest_leaf].
  destruct (lookup "metadata" d) as [[| b | z | f | str | l | m] |];
    try manifest_leaf.
  - destruct (create_namespaced_deployment _ _ (outside s)) as [[e | result] w];
      manifest_leaf.
  - destruct (create_namespaced_deployment _ _ (outside s)) as [[e | result] w];
      manifest_leaf.
Qed.

(** A manifest text that does not parse, or that parses to something that
    is not a mapping (the empty text parses to [None]), is turned down with
    the state untouched: the loader's message, or the missing [get]
    attribute of whatever the text parsed to, behind the manifest prefix. *)
Theorem apply_manifest_unreadable self manifest s :
  match yaml_safe_load manifest with
  | inl e =>
      KubernetesService.apply_manifest self manifest s
      = (inl (Exception ("Ошибка применения манифеста: " ++ str_exn e)%string), s)
  | inr (PyDict _) => True
  | inr v =>
      KubernetesService.apply_manifest self manifest s
      = (inl (Exception
                ("Ошибка применения манифеста: '" ++ type_name v
                 ++ "' object has no attribute 'get'")%string), s)
  end.
Proof.
  unfold KubernetesService.apply_manifest.
  unfold try_except, bind, lift, py_get, raise, any_Exception.
  destruct (yaml_safe_load manifest) as [e | [| b | z | f | str | l | d]];
    reflexivity || exact I.
Qed.

End ManifestAnyInput.

Section Serialization.

Lemma map_PyDict_inj (l1 l2 : list pydict) :
  map PyDict l1 = map PyDict l2 -> l1 = l2.
Proof.
  revert l2. induction l1 as [| a l1 IH]; intros [| b l2] H;
    try discriminate H; [reflexivity |].
  cbn in H. injection H as -> H. f_equal. now apply IH.
Qed.

Lemma map_PyStr_inj (l1 l2 : list string) :
  map PyStr l1 = map PyStr l2 -> l1 = l2.
Proof.
  revert l2. induction l1 as [| a l1 IH]; intros [| b l2] H;
    try discriminate H; [reflexivity |].
  cbn in H. injection H as -> H. f_equal. now apply IH.
Qed.

Lemma dump_opt_str_inj o1 o2 : dump_opt_str o1 = dump_opt_str o2 -> o1 = o2.
Proof. destruct o1, o2; cbn; intros H; congruence. Qed.

(** The serialized form of a record loses nothing: two records that
    serialize to the same body are the same record. *)
Theorem Cluster_dump_injective c1 c2 :
  Cluster_dump c1 = Cluster_dump c2 -> c1 = c2.
Proof.
  destruct c1 as [[n1 d1 k1 p1] i1 s1 ns1 nss1].
  destruct c2 as [[n2 d2 k2 p2] i2 s2 ns2 nss2].
  unfold Cluster_dump. cbn. intros H.
  injection H as Hn Hd Hk Hp Hi Hs Hns Hnss.
  apply dump_opt_str_inj in Hd, Hp.
  apply map_PyDict_inj in Hns. apply map_PyStr_inj in Hnss.
  now subst.
Qed.

End Serialization.

(** A record serializes to the body it serializes to. *)
Lemma Cluster_dump_injective_witness :
  Cluster_dump demo_first_record = Cluster_dump demo_first_record
  /\ demo_first_record = demo_first_record.
Proof.
  split; [reflexivity |].
  apply (@Cluster_dump_injective demo_first_record demo_first_record).
  reflexivity.
Defined.

(* ================================================================== *)
(** ** What the read routes send out *)

Section RouteCalls.

Context {X : Collaborators}.

Lemma only_calls_silent {A} P (m : M A) :
  (forall s, calls (snd (m s)) = calls s) -> only_calls P m.
Proof. intros H s. exists []. rewrite app_nil_r. auto. Qed.

Lemma only_calls_ret {A} P (a : A) : only_calls P (ret a).
Proof. now apply only_calls_silent. Qed.

Lemma only_calls_raise {A} P e : only_calls P (@raise X A e).
Proof. now apply only_calls_silent. Qed.

Lemma only_calls_lift {A} P (r : exn + A) : only_calls P (lift r).
Proof. now apply only_calls_silent. Qed.

Lemma only_calls_now P : only_calls P now.
Proof.
  apply only_calls_silent. intros s. unfold now.
  now destruct (datetime_now (outside s)).
Qed.

Lemma only_calls_outbound {A} P (ask : world -> (exn + A) * world) log :
  (forall r, P (log r)) -> only_calls P (outbound ask log).
Proof.
  intros HP s. unfold outbound. destruct (ask (outside s)) as [r w].
  exists [log r]. cbn. auto.
Qed.

Lemma only_calls_bind {A B} P (m : M A) (k : A -> M B) :
  only_calls P m -> (forall a, only_calls P (k a)) -> only_calls P (bind m k).
Proof.
  intros Hm Hk s. unfold bind. destruct (Hm s) as [evs [Hc Hall]].
  destruct (m s) as [[e | a] s1]; cbn in *; [eauto |].
  destruct (Hk a s1) as [evs' [Hc' Hall']].
  exists (evs ++ evs'). rewrite Hc', Hc, app_assoc. split; [reflexivity |].
  apply Forall_app. auto.
Qed.

Lemma only_calls_try_except {A} P (m : M A) catches h :
  only_calls P m -> (forall e, only_calls P (h e)) ->
  only_calls P (try_except m catches h).
Proof.
  intros Hm Hh s. unfold try_except. destruct (Hm s) as [evs [Hc Hall]].
  destruct (m s) as [[e | a] s1]; cbn in *; [| eauto].
  destruct (catches e); [| cbn; eauto].
  destruct (Hh e s1) as [evs' [Hc' Hall']].
  exists (evs ++ evs'). rewrite Hc', Hc, app_assoc. split; [reflexivity |].
  apply Forall_app. auto.
Qed.

Lemma only_calls_bind_ret {A B} P (a : A) (k : A -> M B) :
  only_calls P (k a) -> only_calls P (bind (ret a) k).
Proof. intros H s. exact (H s). Qed.

#[local] Hint Resolve only_calls_ret only_calls_raise only_calls_lift
  only_calls_now only_calls_bind only_calls_try_except : frame.

Lemma only_calls_query P self q :
  (forall raw,
     P (session_get_ev
          (PrometheusService.self_prometheus_url self ++ "/api/v1/query")
          [("query"%string, q)] raw)) ->
  only_calls P (PrometheusService.query self q None).
Proof.
  intros HP s. rewrite query_run. cbv zeta.
  destruct (session_get _ _ (outside s)) as [raw w].
  eexists [_]. cbn. split; [reflexivity |]. auto.
Qed.

(** The metrics route sends out nothing but metrics queries for the cluster
    registered under the id it was asked for, each to that cluster's own
    endpoint and each one of the four expressions scoped to that cluster's
    name: no control-plane call, no other endpoint, and for an id that is
    not registered nothing at all. *)
Theorem metrics_route_calls cluster_id s :
  exists evs,
    calls (snd (routes.get_cluster_metrics cluster_id s)) = calls s ++ evs
    /\ match routes.find_cluster cluster_id (CLUSTERS s) with
       | Some cluster => Forall (queries_endpoint_of cluster) evs
       | None => evs = []
       end.
Proof.
  unfold routes.get_cluster_metrics, get_CLUSTERS. unfold bind at 1.
  destruct (routes.find_cluster cluster_id (CLUSTERS s)) as [cluster |];
    [| exists []; cbn; now rewrite app_nil_r].
  match goal with
  | |- exists evs, calls (snd (?m s)) = _ /\ _ =>
      enough (H : only_calls (queries_endpoint_of cluster) m) by exact (H s)
  end.
  destruct (prometheus_url cluster) as [u |] eqn:Hurl.
  2:{ cbn. auto with frame. }
  destruct (negb (PrometheusService.truthy (Some u))); [auto with frame |].
  apply only_calls_try_except; [| auto with frame].
  unfold PrometheusService.init. apply only_calls_bind_ret.
  apply only_calls_bind; [| auto with frame].
  unfold PrometheusService.get_cluster_metrics.
  apply only_calls_bind; [auto with frame | intros t].
  apply only_calls_bind;
    [apply only_calls_query; intros raw;
     exists u, (PrometheusService.cpu_usage_query (name cluster)), raw;
     cbn [In]; repeat split; auto 8 | intros cpu].
  apply only_calls_bind;
    [apply only_calls_query; intros raw;
     exists u, (PrometheusService.memory_usage_query (name cluster)), raw;
     cbn [In]; repeat split; auto 8 | intros mem].
  apply only_calls_bind;
    [apply only_calls_query; intros raw;
     exists u, (PrometheusService.pod_count_query (name cluster)), raw;
     cbn [In]; repeat split; auto 8 | intros pods].
  apply only_calls_bind;
    [apply only_calls_query; intros raw;
     exists u, (PrometheusService.node_count_query (name cluster)), raw;
     cbn [In]; repeat split; auto 8 | intros nodes_].
  auto with frame.
Qed.

(** The pods route sends out nothing but the loading of the kube-config of
    the cluster registered under the id it was asked for and the listing of
    the namespace it was asked for; for an id that is not registered,
    nothing at all. *)
Theorem pods_route_calls cluster_id namespace s :
  exists evs,
    calls (snd (routes.get_cluster_pods cluster_id namespace s)) = calls s ++ evs
    /\ match routes.find_cluster cluster_id (CLUSTERS s) with
       | Some cluster => Forall (lists_pods_of cluster namespace) evs
       | None => evs = []
       end.
Proof.
  unfold routes.get_cluster_pods, get_CLUSTERS. unfold bind at 1.
  destruct (routes.find_cluster cluster_id (CLUSTERS s)) as [cluster |];
    [| exists []; cbn; now rewrite app_nil_r].
  match goal with
  | |- exists evs, calls (snd (?m s)) = _ /\ _ =>
      enough (H : only_calls (lists_pods_of cluster namespace) m)
        by exact (H s)
  end.
  apply only_calls_try_except; [| auto with frame].
  apply only_calls_bind.
  - unfold KubernetesService.init, KubernetesService._get_api_client.
    apply only_calls_bind; [| auto with frame].
    apply only_calls_try_except; [| auto with frame].
    apply only_calls_outbound. intros r. left. eauto.
  - intros k. unfold KubernetesService.get_pods.
    apply only_calls_try_except; [| auto with frame].
    apply only_calls_bind; [| auto with frame].
    apply only_calls_outbound. intros r. right. eauto.
Qed.

End RouteCalls.

(* ================================================================== *)
(** ** Registration through the route *)

Section ServedRegistrations.

Context {X : Collaborators}.





End ServedRegistrations.

